(** * twitter-scrapi: the scraper of [main.py], embedded and verified

    The development follows [src/main.py].  Python values are modelled as
    the program has them: a [str] is a sequence of Unicode code points, a
    raised exception is the [Raise] branch of a result type, the parsed page
    is a tree of tags and strings, and the browser driver is a state that
    the two page-load methods thread through their calls.

    Library functions the program calls ([str.replace], [str.strip], [int],
    [urllib.parse.unquote], the selector engine behind [select] and
    [select_one]) are modelled after their reference implementation, each
    with a note on what is left out. *)

From Stdlib Require Import List NArith ZArith Bool Ascii String Lia.
Import ListNotations.

Open Scope string_scope.
Open Scope list_scope.
Open Scope N_scope.

(* ================================================================= *)
(** ** Python strings and exceptions *)

Module Py.

(** A Python [str]: its code points, in order. *)
Definition str := list N.

(** The code point of an ASCII character, and the [str] of an ASCII
    literal of the source. *)
Definition ch (a : ascii) : N := N_of_ascii a.
Definition lit (s : string) : str := map N_of_ascii (list_ascii_of_string s).

Definition str_eqb (a b : str) : bool :=
  if list_eq_dec N.eq_dec a b then true else false.

(** Exceptions raised by the extraction code.  The payload is the
    argument the interpreter attaches (attribute name, key, literal). *)
Inductive exn : Type :=
| AttributeError (attribute : str)  (* 'NoneType' object has no attribute ... *)
| KeyError (key : str)              (* tag[key] on a tag without that attribute *)
| IndexError                        (* list index out of range *)
| TypeError                         (* 'NoneType' object is not subscriptable *)
| ValueError (literal : str).       (* int(literal) refused: invalid, or too many digits *)

(** A computation that returns a value or raises. *)
Inductive result (E A : Type) : Type :=
| Return (a : A)
| Raise (e : E).
Arguments Return {E A} a.
Arguments Raise {E A} e.

Definition bind {E A B} (m : result E A) (k : A -> result E B) : result E B :=
  match m with
  | Return a => k a
  | Raise e => Raise e
  end.

(** A list comprehension or [for] loop whose body may raise: elements are
    visited in order and the first exception aborts the whole loop. *)
Fixpoint for_each {E A B} (f : A -> result E B) (l : list A) : result E (list B) :=
  match l with
  | [] => Return []
  | x :: r =>
      match f x with
      | Raise e => Raise e
      | Return y =>
          match for_each f r with
          | Raise e => Raise e
          | Return ys => Return (y :: ys)
          end
      end
  end.

(** [s.startswith(prefix)] *)
Fixpoint startswith (s prefix : str) {struct prefix} : bool :=
  match prefix with
  | [] => true
  | p :: prefix' =>
      match s with
      | [] => false
      | c :: s' => (c =? p) && startswith s' prefix'
      end
  end.

(** [s.replace(old, new)] for a non-empty [old]: scan from the left; where
    [old] occurs, emit [new] and skip the occurrence (occurrences never
    overlap); elsewhere copy the character.  [skip] counts the characters
    of a matched occurrence still to be dropped. *)
Fixpoint replace_from (old new : str) (skip : nat) (s : str) : str :=
  match s with
  | [] => []
  | c :: s' =>
      match skip with
      | S k => replace_from old new k s'
      | O =>
          if startswith s old
          then new ++ replace_from old new (List.length old - 1) s'
          else c :: replace_from old new 0 s'
      end
  end.

(** [s.replace(old, new)]; with an empty [old], [new] is inserted before
    every character and at the end. *)
Definition replace (s old new : str) : str :=
  match old with
  | [] => new ++ flat_map (fun c => c :: new) s
  | _ :: _ => replace_from old new 0 s
  end.

(** [c.isspace()]: the white-space code points of CPython's Unicode
    database. *)
Definition isspace (c : N) : bool :=
  ((0x09 <=? c) && (c <=? 0x0D)) || ((0x1C <=? c) && (c <=? 0x20))
  || (c =? 0x85) || (c =? 0xA0) || (c =? 0x1680)
  || ((0x2000 <=? c) && (c <=? 0x200A))
  || (c =? 0x2028) || (c =? 0x2029) || (c =? 0x202F)
  || (c =? 0x205F) || (c =? 0x3000).

(** Leading, trailing, surrounding characters of a class removed. *)
Fixpoint lstrip_by (space : N -> bool) (s : str) : str :=
  match s with
  | [] => []
  | c :: s' => if space c then lstrip_by space s' else s
  end.

Definition rstrip_by (space : N -> bool) (s : str) : str :=
  rev (lstrip_by space (rev s)).

Definition strip_by (space : N -> bool) (s : str) : str :=
  rstrip_by space (lstrip_by space s).

(** [s.strip()] *)
Definition strip (s : str) : str := strip_by isspace s.

(** Truth value of a [str] or of [None]: [if stat] *)
Definition truth (o : option str) : bool :=
  match o with
  | Some (_ :: _) => true
  | _ => false
  end.

(** *** [int(s)] in base 10

    After CPython's [PyLong_FromUnicodeObject] and [PyLong_FromString].
    The string is first rewritten to ASCII: characters below 127 stay;
    above, every [isspace] character becomes a space, every decimal digit
    of any script becomes its ASCII digit, and anything else becomes [?].
    Then surrounding white space (the C set: tab to carriage return, and
    space) is skipped, one sign is allowed, and digits follow up to the
    end, with single underscores allowed between two digits.  A number
    of more than [int_max_str_digits] digits is refused. *)
Definition isascii (c : N) : bool := c <? 0x80.

Definition c_isspace (c : N) : bool := ((0x09 <=? c) && (c <=? 0x0D)) || (c =? 0x20).

(** The digit zero of every script with decimal digits (Unicode 14.0, the
    database of CPython 3.11); the digits one to nine follow each. *)
Definition decimal_zeros : list N :=
  [ 0x30; 0x660; 0x6f0; 0x7c0; 0x966; 0x9e6; 0xa66; 0xae6; 0xb66; 0xbe6; 0xc66;
    0xce6; 0xd66; 0xde6; 0xe50; 0xed0; 0xf20; 0x1040; 0x1090; 0x17e0; 0x1810;
    0x1946; 0x19d0; 0x1a80; 0x1a90; 0x1b50; 0x1bb0; 0x1c40; 0x1c50; 0xa620;
    0xa8d0; 0xa900; 0xa9d0; 0xa9f0; 0xaa50; 0xabf0; 0xff10; 0x104a0; 0x10d30;
    0x11066; 0x110f0; 0x11136; 0x111d0; 0x112f0; 0x11450; 0x114d0; 0x11650;
    0x116c0; 0x11730; 0x118e0; 0x11950; 0x11c50; 0x11d50; 0x11da0; 0x16a60;
    0x16ac0; 0x16b50; 0x1d7ce; 0x1d7d8; 0x1d7e2; 0x1d7ec; 0x1d7f6; 0x1e140;
    0x1e2f0; 0x1e950; 0x1fbf0 ].

(** The value of a decimal digit of any script. *)
Fixpoint decimal_in (zeros : list N) (c : N) : option N :=
  match zeros with
  | [] => None
  | z :: r => if (z <=? c) && (c <? z + 10) then Some (c - z) else decimal_in r c
  end.

Definition to_decimal (c : N) : option N := decimal_in decimal_zeros c.

(** The rewriting to ASCII, character by character. *)
Definition to_ascii (c : N) : N :=
  if c <? 127 then c
  else if isspace c then 0x20
  else match to_decimal c with
       | Some d => 0x30 + d
       | None => 0x3F
       end.

(** The default of [sys.get_int_max_str_digits()]. *)
Definition int_max_str_digits : nat := 4300.

Definition isdigit (c : N) : bool := (0x30 <=? c) && (c <=? 0x39).
Definition digit_value (c : N) : Z := Z.of_N (c - 0x30).

Fixpoint int_digits (acc : Z) (after_underscore : bool) (s : str) : option Z :=
  match s with
  | [] => if after_underscore then None else Some acc
  | c :: r =>
      if isdigit c then int_digits (10 * acc + digit_value c)%Z false r
      else if c =? ch "_" then
             if after_underscore then None else int_digits acc true r
      else None
  end.

Definition int_unsigned (s : str) : option Z :=
  match s with
  | c :: _ => if isdigit c then int_digits 0%Z false s else None
  | [] => None
  end.

Definition int (s : str) : result exn Z :=
  let t := strip_by c_isspace (map to_ascii s) in
  let '(negative, body) :=
    match t with
    | c :: r =>
        if c =? ch "-" then (true, r)
        else if c =? ch "+" then (false, r)
        else (false, t)
    | [] => (false, t)
    end in
  match int_unsigned body with
  | Some n =>
      if Nat.ltb int_max_str_digits (List.length (filter isdigit body))
      then Raise (ValueError s)
      else Return (if negative then (- n)%Z else n)
  | None => Raise (ValueError s)
  end.

End Py.

Notation "x <- m ;; k" := (Py.bind m (fun x => k))
  (at level 61, m at next level, right associativity).

(* ================================================================= *)
(** ** [urllib.parse.unquote] *)

Module Urllib.
Import Py.

(** Value of a hexadecimal digit ([0-9A-Fa-f]). *)
Definition hex_value (c : N) : option N :=
  if (0x30 <=? c) && (c <=? 0x39) then Some (c - 0x30)
  else if (0x41 <=? c) && (c <=? 0x46) then Some (c - 0x41 + 10)
  else if (0x61 <=? c) && (c <=? 0x66) then Some (c - 0x61 + 10)
  else None.

(** [unquote_to_bytes] on an ASCII run: every [%XX] with two hexadecimal
    digits becomes the byte [XX]; a [%] not followed by two hexadecimal
    digits stays.  (The library splits at [%] and looks the first two
    characters of each piece up in a table; scanning from the left gives
    the same bytes.) *)
Fixpoint unquote_to_bytes (s : list N) : list N :=
  match s with
  | [] => []
  | c :: r =>
      if c =? ch "%" then
        match r with
        | h :: l :: r' =>
            match hex_value h, hex_value l with
            | Some a, Some b => (16 * a + b) :: unquote_to_bytes r'
            | _, _ => c :: unquote_to_bytes r
            end
        | _ => c :: unquote_to_bytes r
        end
      else c :: unquote_to_bytes r
  end.

(** *** [bytes.decode('utf-8', 'replace')]

    A multi-byte sequence in progress: continuation bytes still needed,
    the code point accumulated so far, and the range allowed for the next
    byte (narrower than 80..BF after E0, ED, F0 and F4, which excludes
    overlong forms, surrogates and code points above 10FFFF). *)
Record pending : Type := mk_pending { need : nat; acc : N; lo : N; hi : N }.

Definition REPLACEMENT : N := 0xFFFD.

(** A byte read with no sequence in progress. *)
Definition utf8_lead (b : N) : option pending * list N :=
  if b <? 0x80 then (None, [b])
  else if (0xC2 <=? b) && (b <=? 0xDF)
       then (Some (mk_pending 1 (N.land b 0x1F) 0x80 0xBF), [])
  else if (0xE0 <=? b) && (b <=? 0xEF)
       then (Some (mk_pending 2 (N.land b 0x0F)
                     (if b =? 0xE0 then 0xA0 else 0x80)
                     (if b =? 0xED then 0x9F else 0xBF)), [])
  else if (0xF0 <=? b) && (b <=? 0xF4)
       then (Some (mk_pending 3 (N.land b 0x07)
                     (if b =? 0xF0 then 0x90 else 0x80)
                     (if b =? 0xF4 then 0x8F else 0xBF)), [])
  else (None, [REPLACEMENT]).

(** Each ill-formed sequence (its longest prefix that could still start a
    well-formed one, or a single stray byte) is replaced by one U+FFFD; the
    byte that broke a sequence is read again as a first byte. *)
Fixpoint utf8_decode (st : option pending) (bs : list N) : str :=
  match bs with
  | [] => match st with None => [] | Some _ => [REPLACEMENT] end
  | b :: r =>
      match st with
      | None => let '(st', out) := utf8_lead b in out ++ utf8_decode st' r
      | Some p =>
          if (lo p <=? b) && (b <=? hi p) then
            let c := N.lor (N.shiftl (acc p) 6) (N.land b 0x3F) in
            match need p with
            | S (S k) => utf8_decode (Some (mk_pending (S k) c 0x80 0xBF)) r
            | _ => c :: utf8_decode None r
            end
          else
            let '(st', out) := utf8_lead b in
            REPLACEMENT :: out ++ utf8_decode st' r
      end
  end.

(** One maximal run of ASCII characters: unquoted to bytes, then decoded. *)
Definition unquote_run (run : str) : str :=
  utf8_decode None (unquote_to_bytes run).

(** The string is cut into maximal ASCII runs and the characters between
    them; runs are unquoted, the other characters are kept.  [run] is the
    ASCII run read so far. *)
Fixpoint unquote_parts (run : str) (s : str) : str :=
  match s with
  | [] => unquote_run run
  | c :: s' =>
      if isascii c then unquote_parts (run ++ [c]) s'
      else unquote_run run ++ c :: unquote_parts [] s'
  end.

(** [unquote(string)] with the default [encoding='utf-8'] and
    [errors='replace'] *)
Definition unquote (s : str) : str :=
  if existsb (N.eqb (ch "%")) s then unquote_parts [] s else s.

End Urllib.

(* ================================================================= *)
(** ** The normalizers of [TwitterScrapper] *)

Module Normalizers.
Import Py.

Definition DOMAIN : str := lit "https://nitter.net".
Definition TWITTER_IMG_DOMAIN : str := lit "https://pbs.twimg.com".

(** [username.replace("@", "")] *)
Definition username_cleaner (username : str) : str :=
  replace username (lit "@") (lit "").

(** [int(stat.replace(",", "")) if stat else 0]; [stat] may be [None]. *)
Definition stat_cleaner (stat : option str) : result exn Z :=
  match stat with
  | Some s => if truth stat then int (replace s (lit ",") (lit "")) else Return 0%Z
  | None => Return 0%Z
  end.

(** [convert_nitter_image_to_twitter] *)
Definition convert_nitter_image_to_twitter (nitter_url : str) : str :=
  if startswith nitter_url (DOMAIN ++ lit "/pic/")
  then Urllib.unquote
         (replace nitter_url (DOMAIN ++ lit "/pic/") (TWITTER_IMG_DOMAIN ++ lit "/"))
  else nitter_url.

End Normalizers.

(* ================================================================= *)
(** ** The parsed page and its selectors *)

Module Bs4.
Import Py.

(** The document tree built by the parser.  A tag has a name, the tokens
    of its [class] attribute (the parser stores that attribute as a list),
    its other attributes and its children; a string is either text or
    something [.text] skips (a comment, a declaration). *)
#[warnings="-register-all"] Inductive node : Type :=
| Text (s : str)
| Comment (s : str)
| Elem (name : str) (classes : list str) (attrs : list (str * str))
       (children : list node).

(** One step up from a node: the enclosing tag, the siblings before the
    node (nearest first) and the siblings after it. *)
Record frame : Type := mk_frame {
  f_name : str;
  f_classes : list str;
  f_attrs : list (str * str);
  f_before : list node;
  f_after : list node
}.

(** A tag object: the element together with its place in the document, so
    that [.parent] and the ancestors a selector needs can be reached. *)
Record tag : Type := mk_tag {
  t_name : str;
  t_classes : list str;
  t_attrs : list (str * str);
  t_children : list node;
  t_path : list frame
}.

Definition tag_node (t : tag) : node :=
  Elem (t_name t) (t_classes t) (t_attrs t) (t_children t).

(** The document object: a tag named [[document]] with no parent. *)
Definition document (children : list node) : tag :=
  mk_tag (lit "[document]") [] [] children [].

Fixpoint node_text (n : node) : str :=
  match n with
  | Text s => s
  | Comment _ => []
  | Elem _ _ _ children => flat_map node_text children
  end.

(** [tag.text]: all text below the tag, concatenated. *)
Definition text (t : tag) : str := flat_map node_text (t_children t).

Fixpoint assoc (key : str) (attrs : list (str * str)) : option str :=
  match attrs with
  | [] => None
  | (k, v) :: r => if str_eqb k key then Some v else assoc key r
  end.

(** [tag[key]] *)
Definition getitem (t : tag) (key : str) : result exn str :=
  match assoc key (t_attrs t) with
  | Some v => Return v
  | None => Raise (KeyError key)
  end.

Definition up (self : node) (f : frame) (above : list frame) : tag :=
  mk_tag (f_name f) (f_classes f) (f_attrs f)
         (rev (f_before f) ++ self :: f_after f) above.

(** [tag.parent]; [None] for the document object. *)
Definition parent (t : tag) : option tag :=
  match t_path t with
  | [] => None
  | f :: above => Some (up (tag_node t) f above)
  end.

(** The ancestors of a node, nearest first. *)
Fixpoint ancestors_from (self : node) (path : list frame) : list tag :=
  match path with
  | [] => []
  | f :: above =>
      let p := up self f above in p :: ancestors_from (tag_node p) above
  end.

Definition ancestors (t : tag) : list tag := ancestors_from (tag_node t) (t_path t).

(** The tags below a node, in document order. *)
Fixpoint descendants_from (path : list frame) (n : node) {struct n} : list tag :=
  match n with
  | Elem name classes attrs children =>
      (fix walk (before after : list node) {struct after} : list tag :=
         match after with
         | [] => []
         | k :: after' =>
             let here := mk_frame name classes attrs before after' :: path in
             match k with
             | Elem kn kc ka kk => [mk_tag kn kc ka kk here]
             | _ => []
             end ++ descendants_from here k ++ walk (k :: before) after'
         end) [] children
  | _ => []
  end.

Definition descendants (t : tag) : list tag :=
  descendants_from (t_path t) (tag_node t).

(** *** Selectors

    The selectors of the program are compound selectors (an optional tag
    name, class names, an optional [:nth-of-type(n)]) joined by the
    descendant combinator. *)
Record compound : Type := mk_compound {
  sel_tag : option str;
  sel_classes : list str;
  sel_nth_of_type : option nat
}.

(** A complex selector: its compounds from the outermost ancestor to the
    subject.  The empty list stands for a selector outside this fragment
    and matches nothing. *)
Definition selector := list compound.

Definition same_type (name : str) (n : node) : bool :=
  match n with
  | Elem m _ _ _ => str_eqb m name
  | _ => false
  end.

(** Position of a tag among the siblings of its type, from 1. *)
Definition index_of_type (t : tag) : nat :=
  match t_path t with
  | [] => 1
  | f :: _ => S (List.length (filter (same_type (t_name t)) (f_before f)))
  end.

Definition match_compound (c : compound) (t : tag) : bool :=
  match sel_tag c with
  | Some name => str_eqb (t_name t) name
  | None => true
  end
  && forallb (fun cl => existsb (str_eqb cl) (t_classes t)) (sel_classes c)
  && match sel_nth_of_type c with
     | Some n => Nat.eqb (index_of_type t) n
     | None => true
     end.

(** The remaining compounds, innermost first, each matched by some
    ancestor further up than the previous one. *)
Fixpoint match_ancestors (cs : list compound) (anc : list tag) : bool :=
  match cs with
  | [] => true
  | c :: cs' =>
      (fix find (anc : list tag) : bool :=
         match anc with
         | [] => false
         | a :: anc' => (match_compound c a && match_ancestors cs' anc') || find anc'
         end) anc
  end.

Definition matches (sel : selector) (t : tag) : bool :=
  match rev sel with
  | [] => false
  | subject :: outer => match_compound subject t && match_ancestors outer (ancestors t)
  end.

(** [tag.select(sel)]: the descendants of [tag] the selector matches, in
    document order.  Ancestors above [tag] count for the match. *)
Definition select (sel : selector) (t : tag) : list tag :=
  filter (matches sel) (descendants t).

(** [tag.select_one(sel)]: the first match, or [None]. *)
Definition select_one (sel : selector) (t : tag) : option tag :=
  match select sel t with
  | [] => None
  | x :: _ => Some x
  end.

(** *** Reading a selector

    A piece of a compound selector: the tag name before any [.] or [:],
    a class after [.], a pseudo-class after [:]. *)
Inductive piece_kind : Type := PTag | PClass | PPseudo.

Fixpoint pieces (kind : piece_kind) (cur : str) (s : str) : list (piece_kind * str) :=
  match s with
  | [] => [(kind, cur)]
  | c :: r =>
      if c =? ch "." then (kind, cur) :: pieces PClass [] r
      else if c =? ch ":" then (kind, cur) :: pieces PPseudo [] r
      else pieces kind (cur ++ [c]) r
  end.

Fixpoint nat_of_digits (acc : nat) (s : str) : option nat :=
  match s with
  | [] => Some acc
  | c :: r => if isdigit c then nat_of_digits (10 * acc + N.to_nat (c - 0x30)) r else None
  end.

(** [nth-of-type(n)] with a plain number [n]. *)
Definition nth_of_type_arg (s : str) : option nat :=
  let head := lit "nth-of-type(" in
  if startswith s head then
    match rev (skipn (List.length head) s) with
    | c :: rdigits =>
        if (c =? ch ")") && negb (Nat.eqb (List.length rdigits) 0)
        then nat_of_digits 0 (rev rdigits) else None
    | [] => None
    end
  else None.

Definition plain_name (s : str) : bool :=
  negb (Nat.eqb (List.length s) 0)
  && forallb (fun c => negb (existsb (N.eqb c) (lit "#[]>+~,*()= "))) s.

Fixpoint compound_of_pieces (ps : list (piece_kind * str)) (c : compound) : option compound :=
  match ps with
  | [] => Some c
  | (PTag, []) :: r => compound_of_pieces r c
  | (PTag, name) :: r =>
      if plain_name name
      then compound_of_pieces r (mk_compound (Some name) (sel_classes c) (sel_nth_of_type c))
      else None
  | (PClass, name) :: r =>
      if plain_name name
      then compound_of_pieces r (mk_compound (sel_tag c) (sel_classes c ++ [name]) (sel_nth_of_type c))
      else None
  | (PPseudo, arg) :: r =>
      match nth_of_type_arg arg, sel_nth_of_type c with
      | Some n, None => compound_of_pieces r (mk_compound (sel_tag c) (sel_classes c) (Some n))
      | _, _ => None
      end
  end.

Definition parse_compound (s : str) : option compound :=
  compound_of_pieces (pieces PTag [] s) (mk_compound None [] None).

(** Words separated by spaces. *)
Fixpoint words (cur : str) (s : str) : list str :=
  match s with
  | [] => match cur with [] => [] | _ => [cur] end
  | c :: r =>
      if c =? ch " "
      then match cur with [] => words [] r | _ => cur :: words [] r end
      else words (cur ++ [c]) r
  end.

Fixpoint parse_all (ws : list str) : option selector :=
  match ws with
  | [] => Some []
  | w :: r =>
      match parse_compound w, parse_all r with
      | Some c, Some cs => Some (c :: cs)
      | _, _ => None
      end
  end.

(** The selector a string of the program denotes. *)
Definition css (s : string) : selector :=
  match parse_all (words [] (lit s)) with
  | Some sel => sel
  | None => []
  end.

End Bs4.

(* ================================================================= *)
(** ** The records the extraction returns *)

(** The [profile] dictionary. *)
Module Profile.
Record t : Type := mk {
  full_name : Py.str;
  username : Py.str;
  bio : Py.str;
  location : Py.str;
  join_date : Py.str;
  tweets : Z;
  following : Z;
  followers : Z;
  likes : Z;
  profile_image : Py.str;
  banner_image : Py.str
}.
End Profile.

(** One [tweet_data] dictionary. *)
Module Tweet.
Record t : Type := mk {
  content : Py.str;
  date : Py.str;
  likes : Py.str;
  comments : Py.str;
  retweets : Py.str;
  tweet_link : Py.str;
  images : list Py.str;
  retweeted_by : option Py.str;
  is_retweet : bool;
  is_reply : bool;
  replying_to : option Py.str
}.
End Tweet.

(** The dictionary [extract_profile_contents] returns. *)
Module Bundle.
Record t : Type := mk {
  profile : Profile.t;
  tweets : list Tweet.t;
  media : list Py.str
}.
End Bundle.

(** One entry of the list [extract_search_contents] returns. *)
Module User.
Record t : Type := mk {
  profile_image_url : Py.str;
  full_name : Py.str;
  username : Py.str;
  bio : Py.str
}.
End User.

(* ================================================================= *)
(** ** Extraction: [extract_profile_contents], [extract_search_contents] *)

Module Extractor.
Import Py Bs4 Normalizers.

(** [x.text] where [x] is the result of [select_one] or of [.parent]. *)
Definition dot_text (x : option tag) : result exn str :=
  match x with
  | Some t => Return (text t)
  | None => Raise (AttributeError (lit "text"))
  end.

(** [x.text.strip()] *)
Definition stripped_text (x : option tag) : result exn str :=
  t <- dot_text x ;; Return (strip t).

(** [x[key]] where [x] is the result of [select_one]. *)
Definition subscript (x : option tag) (key : str) : result exn str :=
  match x with
  | Some t => getitem t key
  | None => Raise TypeError
  end.

(** [convert_nitter_image_to_twitter(DOMAIN + img["src"])] *)
Definition image_url (img : option tag) : result exn str :=
  src <- subscript img (lit "src") ;;
  Return (convert_nitter_image_to_twitter (DOMAIN ++ src)).

(** [icon.parent.text.strip() if icon else "0"] *)
Definition icon_count (icon : option tag) : result exn str :=
  match icon with
  | Some i => stripped_text (parent i)
  | None => Return (lit "0")
  end.

(** The body of the loop over the timeline items. *)
Definition tweet_data (tweet : tag) : result exn Tweet.t :=
  tweet_images <- for_each (fun img => image_url (Some img))
                    (select (css ".attachment.image img") tweet) ;;
  let retweeted_by := select_one (css ".retweet-header div") tweet in
  let replying_to := select_one (css ".tweet-body .replying-to a") tweet in
  content <- match select_one (css ".tweet-content") tweet with
             | Some c => stripped_text (Some c)
             | None => Return (lit "")
             end ;;
  date <- stripped_text (select_one (css ".tweet-date a") tweet) ;;
  likes <- icon_count (select_one (css ".icon-heart") tweet) ;;
  comments <- icon_count (select_one (css ".icon-comment") tweet) ;;
  retweets <- icon_count (select_one (css ".icon-retweet") tweet) ;;
  tweet_link <- match select_one (css ".tweet-link") tweet with
                | Some l => getitem l (lit "href")
                | None => Return (lit "")
                end ;;
  Return (Tweet.mk content date likes comments retweets tweet_link tweet_images
            (option_map (fun t => strip (text t)) retweeted_by)
            (match retweeted_by with Some _ => true | None => false end)
            (match replying_to with Some _ => true | None => false end)
            (option_map (fun t => strip (text t)) replying_to)).

(** One entry of the comprehension over the search results. *)
Definition user_data (user : tag) : result exn User.t :=
  profile_image_url <-
    match select (css ".profile-result .tweet-avatar img") user with
    | img :: _ => image_url (Some img)
    | [] => Raise IndexError
    end ;;
  full_name <- stripped_text (select_one (css ".fullname") user) ;;
  username <- stripped_text (select_one (css ".username") user) ;;
  bio <- match select_one (css ".tweet-content") user with
         | Some c => stripped_text (Some c)
         | None => Return (lit "")
         end ;;
  Return (User.mk profile_image_url full_name username bio).

Section Parser.

(** [BeautifulSoup(html, 'html.parser')]: the parser of the markup is the
    library's; the extraction works on the document it returns. *)
Variable BeautifulSoup : str -> tag.

Definition extract_profile_contents (html : str) : result exn Bundle.t :=
  let soup := BeautifulSoup html in
  full_name <- stripped_text (select_one (css ".profile-card-fullname") soup) ;;
  username <- stripped_text (select_one (css ".profile-card-username") soup) ;;
  bio <- match select_one (css ".profile-bio p") soup with
         | Some b => stripped_text (Some b)
         | None => Return (lit "")
         end ;;
  location <- match select_one (css ".profile-location span:nth-of-type(2)") soup with
              | Some l => stripped_text (Some l)
              | None => Return (lit "")
              end ;;
  joined <- stripped_text (select_one (css ".profile-joindate span") soup) ;;
  tweets_text <- stripped_text (select_one (css ".posts .profile-stat-num") soup) ;;
  tweets <- stat_cleaner (Some tweets_text) ;;
  following_text <- stripped_text (select_one (css ".following .profile-stat-num") soup) ;;
  following <- stat_cleaner (Some following_text) ;;
  followers_text <- stripped_text (select_one (css ".followers .profile-stat-num") soup) ;;
  followers <- stat_cleaner (Some followers_text) ;;
  likes_text <- stripped_text (select_one (css ".likes .profile-stat-num") soup) ;;
  likes <- stat_cleaner (Some likes_text) ;;
  profile_image <- image_url (select_one (css ".profile-card-avatar img") soup) ;;
  banner_image <- match select_one (css ".profile-banner img") soup with
                  | Some b => image_url (Some b)
                  | None => Return (lit "")
                  end ;;
  let profile :=
    Profile.mk full_name (username_cleaner username) bio location
      (strip (replace joined (lit "Joined") (lit "")))
      tweets following followers likes profile_image banner_image in
  tweets <- for_each tweet_data (select (css ".timeline-item") soup) ;;
  media <- for_each (fun img => image_url (Some img))
             (select (css ".photo-rail-grid a img") soup) ;;
  Return (Bundle.mk profile tweets media).

Definition extract_search_contents (html : str) : result exn (list User.t) :=
  let soup := BeautifulSoup html in
  for_each user_data (select (css ".timeline-item") soup).

End Parser.

End Extractor.

(* ================================================================= *)
(** ** Page load: [profile_html_contents], [search_html_contents] *)

Module Fetcher.
Import Py Normalizers.

(** What a page load does to the outside, in order. *)
Inductive event : Type :=
| Navigate (url : str)     (* self.driver.get(url) *)
| Sleep (seconds : Z)      (* time.sleep(seconds) *)
| ReadSource               (* self.driver.page_source *)
| Print (line : str).      (* a line written by print *)

Section Driver.

(** The browser session and the exceptions its calls raise, with their
    [str()] rendering.  A call returns or raises, and moves the session
    to a new state either way. *)
Variable Driver : Type.
Variable Fault : Type.
Variable fault_str : Fault -> str.
Variable driver_get : str -> Driver -> result Fault unit * Driver.
Variable time_sleep : Z -> Driver -> Driver.
Variable driver_page_source : Driver -> result Fault str * Driver.

Record world : Type := mk_world { driver : Driver; trace : list event }.

(** A method body: it runs in a world, returns or raises, and leaves a
    world. *)
Definition io (A : Type) : Type := world -> result Fault A * world.

Definition ret {A} (a : A) : io A := fun w => (Return a, w).

Definition io_bind {A B} (m : io A) (k : A -> io B) : io B :=
  fun w =>
    match m w with
    | (Return a, w') => k a w'
    | (Raise e, w') => (Raise e, w')
    end.

(** [try: body except Exception as e: handler(e)] *)
Definition try_except {A} (body : io A) (handler : Fault -> io A) : io A :=
  fun w =>
    match body w with
    | (Return a, w') => (Return a, w')
    | (Raise e, w') => handler e w'
    end.

Definition get (url : str) : io unit :=
  fun w =>
    let '(r, d) := driver_get url (driver w) in
    (r, mk_world d (trace w ++ [Navigate url])).

Definition sleep (seconds : Z) : io unit :=
  fun w => (Return tt, mk_world (time_sleep seconds (driver w)) (trace w ++ [Sleep seconds])).

Definition page_source : io str :=
  fun w =>
    let '(r, d) := driver_page_source (driver w) in
    (r, mk_world d (trace w ++ [ReadSource])).

Definition print (line : str) : io unit :=
  fun w => (Return tt, mk_world (driver w) (trace w ++ [Print line])).

Local Notation "x <~ m ;; k" := (io_bind m (fun x => k))
  (at level 61, m at next level, right associativity).

(** How an f-string renders a [str] or [None]. *)
Definition format_value (v : option str) : str :=
  match v with
  | Some s => s
  | None => lit "None"
  end.

(** [f"{DOMAIN}/{username}/search"] *)
Definition profile_url (username : str) : str :=
  DOMAIN ++ lit "/" ++ username ++ lit "/search".

(** [f"{DOMAIN}/search?f=users&q={query}&since={from_date}&until={to_date}"] *)
Definition search_url (query : str) (from_date to_date : option str) : str :=
  DOMAIN ++ lit "/search?f=users&q=" ++ query
         ++ lit "&since=" ++ format_value from_date
         ++ lit "&until=" ++ format_value to_date.

Definition profile_html_contents (username : str) : io (option str) :=
  let url := profile_url username in
  try_except
    (_ <~ get url ;;
     _ <~ sleep 5 ;;
     source <~ page_source ;;
     ret (Some source))
    (fun e =>
       _ <~ print (lit "Error: " ++ fault_str e) ;;
       ret None).

Definition search_html_contents (query : str) (from_date to_date : option str)
  : io (option str) :=
  let url := search_url query from_date to_date in
  try_except
    (_ <~ get url ;;
     _ <~ sleep 5 ;;
     source <~ page_source ;;
     ret (Some source))
    (fun e =>
       _ <~ print (lit "Error: " ++ fault_str e) ;;
       ret None).

End Driver.

Arguments driver {Driver} w.
Arguments trace {Driver} w.
Arguments ret {Driver Fault A} a.
Arguments io_bind {Driver Fault A B} m k.
Arguments try_except {Driver Fault A} body handler.
Arguments get {Driver Fault} driver_get url.
Arguments sleep {Driver Fault} time_sleep seconds.
Arguments page_source {Driver Fault} driver_page_source.
Arguments print {Driver Fault} line.
Arguments mk_world {Driver} driver trace.
Arguments profile_html_contents {Driver Fault}.
Arguments search_html_contents {Driver Fault}.

End Fetcher.

(* ================================================================= *)
(** ** Notions of the specification *)

Module Spec.
Import Py Normalizers.

(** The mirror's image-proxy prefix and what replaces it. *)
Definition MIRROR_PIC : str := DOMAIN ++ lit "/pic/".
Definition CDN_ROOT : str := TWITTER_IMG_DOMAIN ++ lit "/".

(** [old in s] *)
Fixpoint contains (s old : str) : bool :=
  startswith s old
  || match s with
     | [] => false
     | _ :: s' => contains s' old
     end.

(** The rule for image URLs in the specification's words: a URL that
    begins with the image-proxy prefix has that prefix replaced by the CDN
    root and the remainder percent-decoded; any other URL is returned
    unchanged. *)
Definition normalizeImageUrl (url : str) : str :=
  if startswith url MIRROR_PIC
  then CDN_ROOT ++ Urllib.unquote (skipn (List.length MIRROR_PIC) url)
  else url.

(** The integer a string of decimal digits denotes. *)
Definition decimal_value (digits : str) : Z :=
  fold_left (fun n c => (10 * n + digit_value c)%Z) digits 0%Z.

(** Display text of a count: one to three digits, then groups of a comma
    and three digits. *)
Fixpoint comma_groups (s : str) : bool :=
  match s with
  | [] => true
  | c :: d1 :: d2 :: d3 :: r =>
      (c =? ch ",") && isdigit d1 && isdigit d2 && isdigit d3 && comma_groups r
  | _ => false
  end.

Definition thousands_separated (s : str) : bool :=
  match s with
  | d1 :: r1 =>
      isdigit d1
      && (comma_groups r1
          || match r1 with
             | d2 :: r2 =>
                 isdigit d2
                 && (comma_groups r2
                     || match r2 with
                        | d3 :: r3 => isdigit d3 && comma_groups r3
                        | [] => false
                        end)
             | [] => false
             end)
  | [] => false
  end.

(** Text made of digits and commas only. *)
Definition digits_and_commas (s : str) : bool :=
  forallb (fun c => isdigit c || (c =? ch ",")) s.

(** A text with no more digits than [int] accepts. *)
Definition within_digit_limit (s : str) : bool :=
  Nat.leb (List.length (filter isdigit s)) int_max_str_digits.

(** [c.isdecimal()]: a decimal digit of any script. *)
Definition isdecimal (c : N) : bool :=
  match to_decimal c with
  | Some _ => true
  | None => false
  end.

(** The count texts [stat_cleaner] is meant for: nothing, or digits and
    commas with at least one digit and no more digits than [int]
    accepts. *)
Definition count_text (s : str) : bool :=
  match s with
  | [] => true
  | _ :: _ => digits_and_commas s && existsb isdigit s && within_digit_limit s
  end.

(** An ASCII character other than [%]. *)
Definition plain (c : N) : bool := isascii c && negb (c =? ch "%").

(** The selectors [extract_profile_contents] dereferences without a
    guard, and among them those of the four counts. *)
Definition required_selectors : list string :=
  [ ".profile-card-fullname"; ".profile-card-username"; ".profile-joindate span";
    ".posts .profile-stat-num"; ".following .profile-stat-num";
    ".followers .profile-stat-num"; ".likes .profile-stat-num";
    ".profile-card-avatar img" ].

Definition stat_selectors : list string :=
  [ ".posts .profile-stat-num"; ".following .profile-stat-num";
    ".followers .profile-stat-num"; ".likes .profile-stat-num" ].

Definition has_src (img : Bs4.tag) : bool :=
  match Bs4.assoc (lit "src") (Bs4.t_attrs img) with
  | Some _ => true
  | None => false
  end.

Definition found (x : option Bs4.tag) : bool :=
  match x with
  | Some _ => true
  | None => false
  end.

(** A search result with everything [extract_search_contents] reads
    without a guard: a first avatar image, and a [src] on that first one,
    a full name, a user name. *)
Definition complete_item (item : Bs4.tag) : bool :=
  match Bs4.select (Bs4.css ".profile-result .tweet-avatar img") item with
  | img :: _ => has_src img
  | [] => false
  end
  && found (Bs4.select_one (Bs4.css ".fullname") item)
  && found (Bs4.select_one (Bs4.css ".username") item).

End Spec.

(* ================================================================= *)
(** ** What a page load shows to the outside *)

Module PageLoad.
Import Py Fetcher.

(** The URLs navigated to and the lines printed, in order. *)
Definition navigations (events : list event) : list str :=
  flat_map (fun e => match e with Navigate url => [url] | _ => [] end) events.

Definition printed (events : list event) : list str :=
  flat_map (fun e => match e with Print line => [line] | _ => [] end) events.

Section Driver.

Variable Driver : Type.
Variable Fault : Type.
Variable fault_str : Fault -> str.
Variable driver_get : str -> Driver -> result Fault unit * Driver.
Variable time_sleep : Z -> Driver -> Driver.
Variable driver_page_source : Driver -> result Fault str * Driver.

(** What the session answers when it is sent to [url], left to settle for
    5 seconds and asked for the page source: the markup, or the fault of
    the first call that fails. *)
Definition driver_outcome (url : str) (d : Driver) : result Fault str :=
  match driver_get url d with
  | (Raise e, _) => Raise e
  | (Return _, d1) => fst (driver_page_source (time_sleep 5 d1))
  end.

(** The contract of a page load of [url]: in every world it navigates
    once, to [url]; it returns the markup if the driver gives it;
    otherwise it returns [None] and prints one line that names the fault.
    Nothing is raised either way. *)
Definition loads (url : str) (m : io Driver Fault (option str)) : Prop :=
  forall w : world Driver,
    exists events,
      trace (snd (m w)) = trace w ++ events
      /\ navigations events = [url]
      /\ match driver_outcome url (driver w) with
         | Return source =>
             fst (m w) = Return (Some source) /\ printed events = []
         | Raise e =>
             fst (m w) = Return None
             /\ printed events = [lit "Error: " ++ fault_str e]
         end.

End Driver.

Arguments driver_outcome {Driver Fault}.
Arguments loads {Driver Fault}.

End PageLoad.

(* ================================================================= *)
(** ** Sample pages *)

Module Pages.
Import Py Bs4.

Definition element (name : string) (classes : list string)
    (attrs : list (string * string)) (children : list node) : node :=
  Elem (lit name) (map lit classes)
       (map (fun kv => (lit (fst kv), lit (snd kv))) attrs) children.

Definition txt (s : string) : node := Text (lit s).

(** A parser that reads every markup as the given document. *)
Definition parsed_as (page : tag) : str -> tag := fun _ => page.

Definition stat (class : string) (shown : string) : node :=
  element "li" [class] []
    [ element "span" ["profile-stat-header"] [] [txt class];
      element "span" ["profile-stat-num"] [] [txt shown] ].

(** The profile card of the mirror's template, with the given pieces. *)
Definition profile_card (fullname : list node) (posts : string) : node :=
  element "div" ["profile-card"] []
    ( [ element "a" ["profile-card-avatar"] [("href", "/pic/profile_images%2F1%2Fa.jpg")]
          [ element "img" [] [("src", "/pic/profile_images%2F1%2Fa.jpg")] [] ] ]
      ++ fullname
      ++ [ element "a" ["profile-card-username"] [("href", "/jane")] [txt "@jane"];
           element "div" ["profile-joindate"] []
             [ element "span" [] [("title", "9:00 AM - 1 Mar 2020")]
                 [txt " Joined March 2020 "] ];
           element "ul" ["profile-statlist"] []
             [ stat "posts" posts; stat "following" "56";
               stat "followers" "7,890"; stat "likes" "" ] ] ).

Definition fullname_link : node :=
  element "a" ["profile-card-fullname"] [("href", "/jane")] [txt "Jane Doe"].

(** A profile page with every required element and an empty timeline. *)
Definition profile_minimal : tag :=
  document [ profile_card [fullname_link] "1,234";
             element "div" ["timeline"] [] [] ].

(** The same page without the full-name element. *)
Definition profile_without_fullname : tag :=
  document [ profile_card [] "1,234";
             element "div" ["timeline"] [] [] ].

(** The same page with a tweet count that is not a number. *)
Definition profile_with_odd_count : tag :=
  document [ profile_card [fullname_link] "n/a";
             element "div" ["timeline"] [] [] ].

Definition user_item (avatar : list node) (fullname username bio : string) : node :=
  element "div" ["timeline-item"] []
    [ element "div" ["tweet-body"; "profile-result"] []
        [ element "div" ["tweet-header"] []
            ( [ element "a" ["tweet-avatar"] [] avatar ]
              ++ [ element "a" ["fullname"] [] [txt fullname];
                   element "a" ["username"] [] [txt username] ] );
          element "div" ["tweet-content"; "media-body"] [] [txt bio] ] ].

Definition avatar_of (path : string) : list node :=
  [ element "img" ["avatar"; "round"] [("src", path)] [] ].

(** A search page with two results. *)
Definition search_two : tag :=
  document
    [ element "div" ["timeline"] []
        [ user_item (avatar_of "/pic/profile_images%2F1%2Fa.jpg") "Alice A" " @alice " "first";
          user_item (avatar_of "/pic/profile_images%2F2%2Fb.jpg") "Bob B" "@bob" "second" ] ].

(** What the extraction returns on it. *)
Definition search_two_users : list User.t :=
  [ User.mk (lit "https://pbs.twimg.com/profile_images/1/a.jpg")
            (lit "Alice A") (lit "@alice") (lit "first");
    User.mk (lit "https://pbs.twimg.com/profile_images/2/b.jpg")
            (lit "Bob B") (lit "@bob") (lit "second") ].

(** A search page whose only result has no avatar image. *)
Definition search_without_avatar : tag :=
  document
    [ element "div" ["timeline"] []
        [ user_item [] "Alice A" "@alice" "first" ] ].

(** A count in groups of three with 4303 digits. *)
Definition long_count : str := ch "1" :: List.concat (repeat (lit ",111") 1434).

(** A search page whose only result has two avatar images, the first
    without a [src]. *)
Definition search_first_avatar_without_src : tag :=
  document
    [ element "div" ["timeline"] []
        [ user_item
            [ element "img" ["avatar"] [] [];
              element "img" ["avatar"] [("src", "/pic/profile_images%2F1%2Fa.jpg")] [] ]
            "Alice A" "@alice" "first" ] ].

(** A driver for examples: its state is the list of pages loaded, latest
    first; it times out on search URLs and serves any other URL. *)
Definition toy_get (url : str) (loaded : list str) : result str unit * list str :=
  if Spec.contains url (lit "/search?")
  then (Raise (lit "Message: timeout"), loaded)
  else (Return tt, url :: loaded).

Definition toy_sleep (seconds : Z) (loaded : list str) : list str := loaded.

Definition toy_page_source (loaded : list str) : result str str * list str :=
  match loaded with
  | url :: _ => (Return (lit "<html>" ++ url ++ lit "</html>"), loaded)
  | [] => (Raise (lit "Message: no page"), loaded)
  end.

End Pages.

(* ================================================================= *)
(** ** The entry points: [get_profile], [search] *)

Module Scrapper.
Import Py Bs4 Extractor Fetcher.

Section Session.

Variable Driver : Type.
Variable Fault : Type.
Variable fault_str : Fault -> str.
Variable driver_get : str -> Driver -> result Fault unit * Driver.
Variable time_sleep : Z -> Driver -> Driver.
Variable driver_page_source : Driver -> result Fault str * Driver.
Variable BeautifulSoup : str -> tag.

(** What a call of an entry point ends with: an exception of the driver
    that got through, or one of the extraction. *)
Definition failure : Type := (Fault + exn)%type.

Definition extracted {A} (r : result exn A) : result failure A :=
  match r with
  | Return a => Return a
  | Raise e => Raise (inr e)
  end.

(** [html = await self.run_in_thread(self.profile_html_contents, username)]
    then [return await self.extract_profile_contents(html)], for one call
    running alone: the executor hands back what the method returns.  The
    parser is given [html] as it is; on [None] it raises [TypeError]
    before any element is read. *)
Definition get_profile (username : str)
  : world Driver -> result failure Bundle.t * world Driver :=
  fun w =>
    match profile_html_contents fault_str driver_get time_sleep driver_page_source
            username w with
    | (Return (Some html), w') => (extracted (extract_profile_contents BeautifulSoup html), w')
    | (Return None, w') => (Raise (inr TypeError), w')
    | (Raise e, w') => (Raise (inl e), w')
    end.

(** [search(query, from_date, to_date)], likewise. *)
Definition search (query : str) (from_date to_date : option str)
  : world Driver -> result failure (list User.t) * world Driver :=
  fun w =>
    match search_html_contents fault_str driver_get time_sleep driver_page_source
            query from_date to_date w with
    | (Return (Some html), w') => (extracted (extract_search_contents BeautifulSoup html), w')
    | (Return None, w') => (Raise (inr TypeError), w')
    | (Raise e, w') => (Raise (inl e), w')
    end.

End Session.

Arguments get_profile {Driver Fault}.
Arguments search {Driver Fault}.
Arguments extracted {Fault A}.

End Scrapper.

(* ================================================================= *)
(** ** More notions for stating what the code does *)

Module Shape.
Import Py Bs4 Fetcher.

(** [x.text.strip() if x else ""] *)
Definition optional_text (x : option tag) : str :=
  match x with
  | Some t => strip (text t)
  | None => lit ""
  end.

Definition has_href (link : tag) : bool :=
  match assoc (lit "href") (t_attrs link) with
  | Some _ => true
  | None => false
  end.

(** A timeline item with everything [extract_profile_contents] reads
    from it without a guard: a date link, a [src] on every attachment
    image, an [href] on the tweet link if there is one. *)
Definition complete_tweet (tweet : tag) : bool :=
  Spec.found (select_one (css ".tweet-date a") tweet)
  && forallb Spec.has_src (select (css ".attachment.image img") tweet)
  && match select_one (css ".tweet-link") tweet with
     | Some link => has_href link
     | None => true
     end.

(** The three courses a page load can take. *)
Definition load_events (url : str) (events : list event) : Prop :=
  events = [Navigate url; Sleep 5; ReadSource]
  \/ (exists line, events = [Navigate url; Sleep 5; ReadSource; Print line])
  \/ (exists line, events = [Navigate url; Print line]).

End Shape.

(* ================================================================= *)
(** ** A sample timeline *)

Module Timelines.
Import Py Bs4 Pages.

Definition icon_stat (icon : string) (shown : string) : node :=
  element "span" ["tweet-stat"] []
    [ element "div" ["icon-container"] []
        [ element "span" [icon] [] []; txt shown ] ].

Definition date_link : node :=
  element "span" ["tweet-date"] []
    [ element "a" [] [("href", "/jane/status/1#m")] [txt "Mar 1"] ].

Definition attachment (src : list (string * string)) : node :=
  element "div" ["attachments"] []
    [ element "div" ["attachment"; "image"] []
        [ element "a" ["still-image"] [("href", "/pic/orig/media%2Fx.jpg")]
            [ element "img" [] src [] ] ] ].

(** A plain tweet with one picture, a like count and no comment count. *)
Definition tweet_plain : node :=
  element "div" ["timeline-item"] []
    [ element "a" ["tweet-link"] [("href", "/jane/status/1#m")] [];
      element "div" ["tweet-body"] []
        [ element "div" ["tweet-header"] [] [date_link];
          element "div" ["tweet-content"; "media-body"] [] [txt " hello "];
          attachment [("src", "/pic/media%2Fx.jpg")];
          element "div" ["tweet-stats"] []
            [ icon_stat "icon-heart" " 12 "; icon_stat "icon-retweet" " 3" ] ] ].

(** A reply without body text, pictures or counts. *)
Definition tweet_reply : node :=
  element "div" ["timeline-item"] []
    [ element "div" ["tweet-body"] []
        [ element "div" ["tweet-header"] [] [date_link];
          element "div" ["replying-to"] []
            [ txt "Replying to "; element "a" [] [("href", "/bob")] [txt "@bob"] ] ] ].

(** A timeline item without a date link. *)
Definition tweet_undated : node :=
  element "div" ["timeline-item"] []
    [ element "div" ["tweet-body"] []
        [ element "div" ["tweet-content"] [] [txt "more"] ] ].

Definition photo_rail : node :=
  element "div" ["photo-rail-grid"] []
    [ element "a" [] [("href", "/jane/status/1#m")]
        [ element "img" [] [("src", "/pic/media%2Fx.jpg%3Fname%3Dsmall")] [] ];
      element "a" [] [("href", "/jane/status/2#m")]
        [ element "img" [] [("src", "/static/placeholder.png")] [] ] ].

(** A profile page with two tweets and two photo-rail pictures. *)
Definition profile_with_tweets : tag :=
  document [ profile_card [fullname_link] "1,234";
             photo_rail;
             element "div" ["timeline"] [] [tweet_plain; tweet_reply] ].

(** The same page with a third, undated timeline item. *)
Definition profile_with_undated_tweet : tag :=
  document [ profile_card [fullname_link] "1,234";
             photo_rail;
             element "div" ["timeline"] [] [tweet_plain; tweet_reply; tweet_undated] ].

End Timelines.

(* ================================================================= *)
(** ** Strings: facts about [startswith], [replace], [strip] *)

Import Py Normalizers Spec.

Lemma startswith_app (p s : str) : startswith (p ++ s) p = true.
Proof.
  induction p as [|c p IH]; simpl; [reflexivity|].
  now rewrite N.eqb_refl, IH.
Qed.

Lemma startswith_split (s p : str) :
  startswith s p = true -> s = p ++ skipn (List.length p) s.
Proof.
  revert s; induction p as [|c p IH]; intros s H; simpl in *; [reflexivity|].
  destruct s as [|d s]; [discriminate|].
  apply andb_true_iff in H as [Hc Hs].
  apply N.eqb_eq in Hc; subst d.
  simpl. f_equal. now apply IH.
Qed.

Lemma skipn_app_exact (p s : str) : skipn (List.length p) (p ++ s) = s.
Proof. induction p; simpl; auto. Qed.

(** Characters of a matched occurrence are dropped without a look. *)
Lemma replace_from_skip (old new xs rest : str) :
  replace_from old new (List.length xs) (xs ++ rest) = replace_from old new 0 rest.
Proof.
  induction xs as [|x xs IH]; simpl; [destruct rest; reflexivity|exact IH].
Qed.

(** An occurrence at the very start is replaced and the scan resumes
    after it. *)
Lemma replace_at_start (c : N) (old new rest : str) :
  replace ((c :: old) ++ rest) (c :: old) new = new ++ replace rest (c :: old) new.
Proof.
  unfold replace.
  change ((c :: old) ++ rest) with (c :: (old ++ rest)).
  cbn [replace_from].
  change (c :: old ++ rest) with ((c :: old) ++ rest).
  rewrite startswith_app.
  replace (List.length (c :: old) - 1)%nat with (List.length old) by (simpl; lia).
  now rewrite replace_from_skip.
Qed.

(** Where [old] does not occur, nothing changes. *)
Lemma replace_absent (s old new : str) :
  contains s old = false -> replace s old new = s.
Proof.
  destruct old as [|o old].
  - intros H. destruct s; simpl in H; discriminate.
  - unfold replace. induction s as [|c s IH]; intros H; [reflexivity|].
    cbn [contains] in H. apply orb_false_iff in H as [H0 H1].
    cbn [replace_from]. rewrite H0. f_equal. now apply IH.
Qed.

(** Replacing a single character by nothing keeps exactly the other
    characters. *)
Lemma replace_char_by_nothing (c : N) (s : str) :
  replace s [c] [] = filter (fun x => negb (x =? c)) s.
Proof.
  unfold replace. induction s as [|x s IH]; [reflexivity|].
  cbn [replace_from startswith filter List.length].
  rewrite andb_true_r.
  destruct (x =? c); simpl; [exact IH|now rewrite IH].
Qed.

Lemma isdigit_cases (c : N) :
  isdigit c = true ->
  c = 48 \/ c = 49 \/ c = 50 \/ c = 51 \/ c = 52 \/ c = 53 \/ c = 54 \/ c = 55
  \/ c = 56 \/ c = 57.
Proof.
  unfold isdigit. intros H. apply andb_true_iff in H as [H1 H2].
  apply N.leb_le in H1, H2. lia.
Qed.

Ltac digit_cases c H :=
  apply isdigit_cases in H;
  repeat (destruct H as [H|H]; [subst c; try reflexivity|]); try (subst c; reflexivity).

Lemma digit_not_space (c : N) : isdigit c = true -> c_isspace c = false.
Proof. intros H. digit_cases c H. Qed.

Lemma digit_to_ascii (c : N) : isdigit c = true -> to_ascii c = c.
Proof. intros H. digit_cases c H. Qed.

Lemma digits_to_ascii (d : str) : forallb isdigit d = true -> map to_ascii d = d.
Proof.
  induction d as [|c d IH]; intros H; [reflexivity|].
  cbn [forallb] in H. apply andb_true_iff in H as [Hc Hd].
  cbn [map]. now rewrite (digit_to_ascii c Hc), (IH Hd).
Qed.

Lemma filter_all (f : N -> bool) (s : str) : forallb f s = true -> filter f s = s.
Proof.
  induction s as [|c s IH]; intros H; [reflexivity|].
  cbn [forallb] in H. apply andb_true_iff in H as [Hc Hs].
  cbn [filter]. now rewrite Hc, (IH Hs).
Qed.

Lemma digit_not_sign (c : N) :
  isdigit c = true -> (c =? ch "-") = false /\ (c =? ch "+") = false.
Proof. intros H. split; digit_cases c H. Qed.

Lemma digit_not_comma (c : N) : isdigit c = true -> (c =? ch ",") = false.
Proof. intros H. digit_cases c H. Qed.

(** A string of digits has no white space to strip. *)
Lemma strip_digits (d : str) :
  forallb isdigit d = true -> strip_by c_isspace d = d.
Proof.
  intros H. unfold strip_by, rstrip_by.
  assert (L : forall x, forallb isdigit x = true -> lstrip_by c_isspace x = x).
  { intros [|c x] Hx; [reflexivity|]. cbn [forallb] in Hx.
    apply andb_true_iff in Hx as [Hc _].
    cbn [lstrip_by]. now rewrite (digit_not_space c Hc). }
  rewrite (L d H). rewrite L, rev_involutive; [reflexivity|].
  rewrite forallb_forall in *. intros x Hx. apply H. now apply in_rev.
Qed.

Lemma int_digits_all (d : str) (n : Z) :
  forallb isdigit d = true ->
  int_digits n false d = Some (fold_left (fun n c => (10 * n + digit_value c)%Z) d n).
Proof.
  revert n; induction d as [|c d IH]; intros n H; [reflexivity|].
  simpl in H. apply andb_true_iff in H as [Hc Hd].
  cbn [int_digits fold_left]. rewrite Hc. now apply IH.
Qed.

(** [int] of a non-empty string of digits, no more than it accepts, is
    the decimal value. *)
Lemma int_of_digits (d : str) :
  d <> [] -> forallb isdigit d = true ->
  (List.length d <= int_max_str_digits)%nat ->
  int d = Return (decimal_value d).
Proof.
  intros Hne H Hlen. unfold int. rewrite (digits_to_ascii d H), (strip_digits d H).
  destruct d as [|c d]; [contradiction|].
  pose proof H as H'. cbn [forallb] in H'. apply andb_true_iff in H' as [Hc _].
  destruct (digit_not_sign c Hc) as [Hm Hp]. rewrite Hm, Hp.
  unfold int_unsigned. rewrite Hc.
  rewrite (int_digits_all (c :: d) 0%Z H), (filter_all _ _ H).
  now rewrite (proj2 (Nat.ltb_ge _ _) Hlen).
Qed.

Lemma filter_commas_keeps_digits (s : str) :
  digits_and_commas s = true ->
  filter (fun x => negb (x =? ch ",")) s = filter isdigit s.
Proof.
  unfold digits_and_commas. induction s as [|c s IH]; intros H; [reflexivity|].
  cbn [forallb] in H. apply andb_true_iff in H as [Hc Hs].
  cbn [filter]. rewrite (IH Hs).
  destruct (isdigit c) eqn:E.
  - now rewrite (digit_not_comma c E).
  - cbn [orb] in Hc. now rewrite Hc.
Qed.

Lemma filter_digit_nonempty (s : str) :
  existsb isdigit s = true -> filter isdigit s <> [].
Proof.
  induction s as [|c s IH]; simpl; [discriminate|].
  destruct (isdigit c); [discriminate|exact IH].
Qed.

Lemma forallb_filter_same (f : N -> bool) (s : str) : forallb f (filter f s) = true.
Proof.
  induction s as [|c s IH]; [reflexivity|]. simpl.
  destruct (f c) eqn:E; simpl; [now rewrite E|exact IH].
Qed.

(** [stat_cleaner] on digits and commas: the commas go, the digits are
    read as one decimal number. *)
Lemma stat_cleaner_digits_and_commas (s : str) :
  digits_and_commas s = true -> existsb isdigit s = true ->
  within_digit_limit s = true ->
  stat_cleaner (Some s) = Return (decimal_value (filter isdigit s)).
Proof.
  intros Hdc Hex Hlim. unfold stat_cleaner.
  destruct s as [|c s]; [discriminate|]. cbn [truth].
  change (lit ",") with [ch ","]. change (lit "") with (@nil N).
  rewrite replace_char_by_nothing, (filter_commas_keeps_digits _ Hdc).
  apply int_of_digits.
  - now apply filter_digit_nonempty.
  - apply forallb_filter_same.
  - now apply Nat.leb_le.
Qed.

Lemma comma_groups_digits_and_commas (s : str) :
  comma_groups s = true -> digits_and_commas s = true.
Proof.
  assert (G : forall n s, (List.length s <= n)%nat ->
                          comma_groups s = true -> digits_and_commas s = true).
  { induction n as [|n IH]; intros t Hlen H.
    - destruct t; [reflexivity|simpl in Hlen; lia].
    - destruct t as [|c [|d1 [|d2 [|d3 r]]]]; try discriminate; [reflexivity|].
      cbn [comma_groups] in H.
      repeat (apply andb_true_iff in H as [H ?]).
      unfold digits_and_commas in *. cbn [forallb].
      rewrite H, H3, H2, H1. rewrite (IH r); [|simpl in Hlen; lia|assumption].
      now rewrite orb_true_r. }
  apply (G (List.length s)). lia.
Qed.

Lemma thousands_separated_digits_and_commas (s : str) :
  thousands_separated s = true ->
  digits_and_commas s = true /\ existsb isdigit s = true.
Proof.
  unfold thousands_separated.
  destruct s as [|d1 r1]; [discriminate|]. intros H.
  apply andb_true_iff in H as [H1 H].
  split; [|simpl; now rewrite H1].
  unfold digits_and_commas. cbn [forallb]. rewrite H1. cbn [orb andb].
  apply orb_true_iff in H as [H|H]; [now apply comma_groups_digits_and_commas|].
  destruct r1 as [|d2 r2]; [discriminate|].
  apply andb_true_iff in H as [H2 H].
  cbn [forallb]. rewrite H2. cbn [orb andb].
  apply orb_true_iff in H as [H|H]; [now apply comma_groups_digits_and_commas|].
  destruct r2 as [|d3 r3]; [discriminate|].
  apply andb_true_iff in H as [H3 H].
  cbn [forallb]. rewrite H3. cbn [orb andb].
  now apply comma_groups_digits_and_commas.
Qed.

(* ================================================================= *)
(** ** [unquote] leaves a plain ASCII prefix alone *)

Import Urllib.

Lemma unquote_to_bytes_plain (a rest : str) :
  forallb plain a = true ->
  unquote_to_bytes (a ++ rest) = a ++ unquote_to_bytes rest.
Proof.
  induction a as [|c a IH]; intros H; [reflexivity|].
  cbn [forallb] in H. apply andb_true_iff in H as [Hc Ha].
  unfold plain in Hc. apply andb_true_iff in Hc as [_ Hp].
  apply negb_true_iff in Hp.
  change ((c :: a) ++ rest) with (c :: (a ++ rest)).
  cbn [unquote_to_bytes]. rewrite Hp. simpl. f_equal. now apply IH.
Qed.

Lemma utf8_decode_ascii (a bytes : list N) :
  forallb isascii a = true ->
  utf8_decode None (a ++ bytes) = a ++ utf8_decode None bytes.
Proof.
  induction a as [|c a IH]; intros H; [reflexivity|].
  cbn [forallb] in H. apply andb_true_iff in H as [Hc Ha].
  change ((c :: a) ++ bytes) with (c :: (a ++ bytes)).
  cbn [utf8_decode]. unfold utf8_lead. unfold isascii in Hc. rewrite Hc.
  simpl. f_equal. now apply IH.
Qed.

Lemma plain_isascii (a : str) : forallb plain a = true -> forallb isascii a = true.
Proof.
  rewrite !forallb_forall. intros H x Hx. specialize (H x Hx).
  unfold plain in H. now apply andb_true_iff in H as [H _].
Qed.

Lemma unquote_run_plain (a run : str) :
  forallb plain a = true -> unquote_run (a ++ run) = a ++ unquote_run run.
Proof.
  intros H. unfold unquote_run.
  rewrite (unquote_to_bytes_plain _ _ H).
  apply utf8_decode_ascii. now apply plain_isascii.
Qed.

Lemma unquote_parts_plain (a run s : str) :
  forallb plain a = true ->
  unquote_parts (a ++ run) s = a ++ unquote_parts run s.
Proof.
  intros H. revert run. induction s as [|c s IH]; intros run; cbn [unquote_parts].
  - now apply unquote_run_plain.
  - destruct (isascii c).
    + rewrite <- app_assoc. apply IH.
    + rewrite (unquote_run_plain _ _ H). now rewrite <- app_assoc.
Qed.

(** Reading ASCII characters only extends the current run. *)
Lemma unquote_parts_read (a run s : str) :
  forallb isascii a = true ->
  unquote_parts run (a ++ s) = unquote_parts (run ++ a) s.
Proof.
  revert run. induction a as [|c a IH]; intros run H.
  - now rewrite app_nil_r.
  - cbn [forallb] in H. apply andb_true_iff in H as [Hc Ha].
    change ((c :: a) ++ s) with (c :: (a ++ s)).
    cbn [unquote_parts]. rewrite Hc, (IH _ Ha), <- app_assoc. reflexivity.
Qed.

Lemma existsb_percent_plain (a s : str) :
  forallb plain a = true ->
  existsb (N.eqb (ch "%")) (a ++ s) = existsb (N.eqb (ch "%")) s.
Proof.
  induction a as [|c a IH]; intros H; [reflexivity|].
  cbn [forallb] in H. apply andb_true_iff in H as [Hc Ha].
  unfold plain in Hc. apply andb_true_iff in Hc as [_ Hp].
  apply negb_true_iff in Hp. rewrite N.eqb_sym in Hp.
  change ((c :: a) ++ s) with (c :: (a ++ s)).
  cbn [existsb]. rewrite Hp. now apply IH.
Qed.

(** [unquote] copies a prefix of ASCII characters without [%] and
    decodes what follows as if it stood alone. *)
Lemma unquote_plain_prefix (a s : str) :
  forallb plain a = true -> unquote (a ++ s) = a ++ unquote s.
Proof.
  intros H. unfold unquote. rewrite (existsb_percent_plain _ _ H).
  destruct (existsb (N.eqb (ch "%")) s); [|reflexivity].
  rewrite (unquote_parts_read a [] s (plain_isascii _ H)).
  cbn [app]. rewrite <- (app_nil_r a) at 1.
  now apply unquote_parts_plain.
Qed.

Lemma CDN_ROOT_plain : forallb plain CDN_ROOT = true.
Proof. reflexivity. Qed.

(** The image-proxy prefix is never empty: it starts with [h]. *)
Lemma MIRROR_PIC_cons : exists c p, MIRROR_PIC = c :: p.
Proof. now eexists _, _. Qed.

(** What the method computes on a URL with the image-proxy prefix: the
    prefix becomes the CDN root; in the remainder every further occurrence
    of the prefix is rewritten too, and the result is percent-decoded. *)
Lemma convert_on_mirror_url (rest : str) :
  convert_nitter_image_to_twitter (MIRROR_PIC ++ rest)
  = CDN_ROOT ++ unquote (replace rest MIRROR_PIC CDN_ROOT).
Proof.
  unfold convert_nitter_image_to_twitter.
  fold MIRROR_PIC. fold CDN_ROOT.
  rewrite startswith_app.
  destruct MIRROR_PIC_cons as (c & p & E). rewrite E.
  rewrite replace_at_start.
  apply unquote_plain_prefix, CDN_ROOT_plain.
Qed.

(** Outside the image-proxy path the method is the identity. *)
Lemma convert_on_other_url (url : str) :
  startswith url MIRROR_PIC = false -> convert_nitter_image_to_twitter url = url.
Proof.
  intros H. unfold convert_nitter_image_to_twitter.
  fold MIRROR_PIC. now rewrite H.
Qed.

(** The method follows the rule of the specification on every URL whose
    remainder does not contain the image-proxy prefix again. *)
Lemma convert_agrees_without_inner_prefix (url : str) :
  contains (skipn (List.length MIRROR_PIC) url) MIRROR_PIC = false ->
  convert_nitter_image_to_twitter url = normalizeImageUrl url.
Proof.
  intros H. unfold normalizeImageUrl.
  destruct (startswith url MIRROR_PIC) eqn:E.
  - rewrite (startswith_split _ _ E) at 1.
    rewrite convert_on_mirror_url. now rewrite (replace_absent _ _ _ H).
  - now apply convert_on_other_url.
Qed.

(** A result of the method never begins with the image-proxy prefix
    again when the input did. *)
Lemma convert_result_not_mirror (rest : str) :
  startswith (convert_nitter_image_to_twitter (MIRROR_PIC ++ rest)) MIRROR_PIC = false.
Proof. rewrite convert_on_mirror_url. reflexivity. Qed.

(* ================================================================= *)
(** ** The normalizers *)

Lemma username_cleaner_filter (s : str) :
  username_cleaner s = filter (fun c => negb (c =? ch "@")) s.
Proof.
  unfold username_cleaner.
  change (lit "@") with [ch "@"]. change (lit "") with (@nil N).
  apply replace_char_by_nothing.
Qed.

(** C5.  [username_cleaner] removes every occurrence of the character
    [@], wherever it stands: the result is the input with exactly its [@]
    characters left out.  In particular ["@handle"] becomes ["handle"] and
    ["@a@b"] becomes ["ab"]. *)
Theorem username_cleaner_removes_every_at :
  (forall s : str, username_cleaner s = filter (fun c => negb (c =? ch "@")) s)
  /\ username_cleaner (lit "@handle") = lit "handle"
  /\ username_cleaner (lit "@a@b") = lit "ab".
Proof.
  split; [exact username_cleaner_filter|split; reflexivity].
Qed.

(** C6, amended.  On a thousands-separated digit string of at most 4300
    digits [stat_cleaner] drops the commas and returns the number the
    digits denote; on the empty string and on [None] it returns 0.  In
    particular ["1,234"] gives 1234. *)
Theorem stat_cleaner_parses_counts :
  (forall s : str,
      thousands_separated s = true ->
      within_digit_limit s = true ->
      stat_cleaner (Some s) = Return (decimal_value (filter isdigit s)))
  /\ stat_cleaner (Some (lit "1,234")) = Return 1234%Z
  /\ stat_cleaner (Some (lit "")) = Return 0%Z
  /\ stat_cleaner None = Return 0%Z.
Proof.
  split; [|repeat split; reflexivity].
  intros s H Hlim. apply thousands_separated_digits_and_commas in H as [Hdc Hex].
  now apply stat_cleaner_digits_and_commas.
Qed.

Lemma stat_cleaner_parses_counts_witness :
  thousands_separated (lit "12,345,678") = true
  /\ within_digit_limit (lit "12,345,678") = true
  /\ stat_cleaner (Some (lit "12,345,678")) = Return 12345678%Z.
Proof.
  split; [reflexivity|]. split; [reflexivity|].
  exact (proj1 stat_cleaner_parses_counts (lit "12,345,678") eq_refl eq_refl).
Defined.

(** C6 as stated fails on a thousands-separated digit string of 4303
    digits: [int] refuses more than 4300 digits and [stat_cleaner]
    raises. *)
Lemma stat_cleaner_long_count_raises :
  thousands_separated Pages.long_count = true
  /\ List.length (filter isdigit Pages.long_count) = 4303%nat
  /\ stat_cleaner (Some Pages.long_count) = Raise (ValueError (repeat (ch "1") 4303))
  /\ stat_cleaner (Some Pages.long_count)
     <> Return (decimal_value (filter isdigit Pages.long_count)).
Proof.
  assert (E : stat_cleaner (Some Pages.long_count)
              = Raise (ValueError (repeat (ch "1") 4303)))
    by (vm_compute; reflexivity).
  split; [vm_compute; reflexivity|].
  split; [vm_compute; reflexivity|].
  split; [exact E|].
  intros H. rewrite E in H. discriminate H.
Qed.

(** C1, at the URL ["https://nitter.net/pic/https://nitter.net/pic/x"].
    The URL begins with the image-proxy prefix and its remainder contains
    the prefix once more.  [convert_nitter_image_to_twitter] rewrites both
    occurrences, so its result differs from the prefix replaced and the
    remainder percent-decoded. *)
Theorem convert_rewrites_inner_prefix :
  let url := lit "https://nitter.net/pic/https://nitter.net/pic/x" in
  startswith url MIRROR_PIC = true
  /\ convert_nitter_image_to_twitter url
     = lit "https://pbs.twimg.com/https://pbs.twimg.com/x"
  /\ normalizeImageUrl url = lit "https://pbs.twimg.com/https://nitter.net/pic/x"
  /\ convert_nitter_image_to_twitter url <> normalizeImageUrl url.
Proof.
  cbv zeta. repeat split; try reflexivity.
  intros H. vm_compute in H. discriminate H.
Qed.

(** The rule and the method agree on the specification's sample URL;
    both keep the decoded remainder after the CDN root. *)
Example convert_sample_url :
  convert_nitter_image_to_twitter
    (lit "https://nitter.net/pic/https%3A%2F%2Fpbs.twimg.com%2Ffoo.jpg")
  = lit "https://pbs.twimg.com/https://pbs.twimg.com/foo.jpg"
  /\ normalizeImageUrl
       (lit "https://nitter.net/pic/https%3A%2F%2Fpbs.twimg.com%2Ffoo.jpg")
     = lit "https://pbs.twimg.com/https://pbs.twimg.com/foo.jpg"
  /\ convert_nitter_image_to_twitter (lit "https://unrelated.example/x.png")
     = lit "https://unrelated.example/x.png".
Proof. repeat split; reflexivity. Qed.

(** C9.  [convert_nitter_image_to_twitter] is idempotent: applied to its
    own result it returns that result unchanged. *)
Theorem convert_idempotent (url : str) :
  convert_nitter_image_to_twitter (convert_nitter_image_to_twitter url)
  = convert_nitter_image_to_twitter url.
Proof.
  destruct (startswith url MIRROR_PIC) eqn:E.
  - rewrite (startswith_split _ _ E).
    apply convert_on_other_url, convert_result_not_mirror.
  - now rewrite !(convert_on_other_url url E).
Qed.

(* ================================================================= *)
(** ** Loops that may raise *)

Import Bs4 Extractor Pages.

Lemma for_each_all {E A B} (f : A -> result E B) (l : list A) :
  (forall x, In x l -> exists y, f x = Return y) ->
  exists ys, for_each f l = Return ys /\ Forall2 (fun x y => f x = Return y) l ys.
Proof.
  induction l as [|x l IH]; intros H.
  - exists []. split; [reflexivity|constructor].
  - destruct (H x (or_introl eq_refl)) as [y Hy].
    destruct IH as (ys & Hys & HF); [intros z Hz; apply H; now right|].
    exists (y :: ys). cbn [for_each]. rewrite Hy, Hys.
    split; [reflexivity|now constructor].
Qed.

Lemma for_each_inv {E A B} (f : A -> result E B) (l : list A) (ys : list B) :
  for_each f l = Return ys -> Forall2 (fun x y => f x = Return y) l ys.
Proof.
  revert ys; induction l as [|x l IH]; intros ys H; cbn [for_each] in H.
  - injection H as <-. constructor.
  - destruct (f x) as [y|] eqn:Hy; [|discriminate].
    destruct (for_each f l) as [ys'|] eqn:Hl; [|discriminate].
    injection H as <-. constructor; [assumption|now apply IH].
Qed.

(* ================================================================= *)
(** ** Extraction *)

Lemma stat_cleaner_count_text (s : str) :
  count_text s = true -> exists n, stat_cleaner (Some s) = Return n.
Proof.
  destruct s as [|c s]; intros H.
  - now exists 0%Z.
  - cbn [count_text] in H. apply andb_true_iff in H as [H Hlim].
    apply andb_true_iff in H as [Hdc Hex].
    eexists. now apply stat_cleaner_digits_and_commas.
Qed.

Lemma image_url_has_src (img : tag) :
  has_src img = true -> exists u, image_url (Some img) = Return u.
Proof.
  unfold has_src, image_url, subscript, getitem. intros H.
  destruct (assoc (lit "src") (t_attrs img)); [|discriminate].
  eexists. reflexivity.
Qed.

Lemma user_data_complete (item : tag) :
  complete_item item = true -> exists u, user_data item = Return u.
Proof.
  unfold complete_item, user_data. intros H.
  apply andb_true_iff in H as [H Hu]. apply andb_true_iff in H as [Hi Hf].
  destruct (select (css ".profile-result .tweet-avatar img") item) as [|img ?];
    [discriminate|].
  destruct (image_url_has_src img Hi) as [u ->].
  destruct (select_one (css ".fullname") item); [|discriminate].
  destruct (select_one (css ".username") item); [|discriminate].
  destruct (select_one (css ".tweet-content") item); eexists; reflexivity.
Qed.

(** The [username] of a search result is the stripped text of the
    [.username] element, as it stands. *)
Lemma user_data_username (item : tag) (u : User.t) :
  user_data item = Return u ->
  exists el, select_one (css ".username") item = Some el
             /\ User.username u = strip (text el).
Proof.
  unfold user_data. intros H.
  destruct (select (css ".profile-result .tweet-avatar img") item) as [|img ?];
    [discriminate|].
  destruct (image_url (Some img)); [|discriminate].
  destruct (select_one (css ".fullname") item); [|discriminate].
  destruct (select_one (css ".username") item) as [el|]; [|discriminate].
  exists el. split; [reflexivity|].
  destruct (select_one (css ".tweet-content") item);
    cbn in H; injection H as <-; reflexivity.
Qed.

(** C2.  On a profile page without the full-name element
    [extract_profile_contents] raises instead of returning a bundle: the
    first field it reads dereferences the missing element. *)
Theorem profile_without_fullname_raises (BeautifulSoup : str -> tag) (html : str) :
  select_one (css ".profile-card-fullname") (BeautifulSoup html) = None ->
  extract_profile_contents BeautifulSoup html = Raise (AttributeError (lit "text")).
Proof.
  intros H. unfold extract_profile_contents. cbv zeta. rewrite H. reflexivity.
Qed.

Lemma profile_without_fullname_raises_witness :
  select_one (css ".profile-card-fullname") profile_without_fullname = None
  /\ extract_profile_contents (parsed_as profile_without_fullname) (lit "<html>")
     = Raise (AttributeError (lit "text")).
Proof.
  split; [reflexivity|].
  apply (profile_without_fullname_raises (parsed_as profile_without_fullname)).
  reflexivity.
Defined.

Ltac split_Forall H :=
  repeat (apply Forall_cons_iff in H; destruct H as [? H]); clear H; cbv beta in *.

Ltac required x :=
  match goal with
  | H : select_one ?s ?soup <> None |- context [select_one ?s ?soup] =>
      destruct (select_one s soup) as [x|] eqn:?; [clear H|now contradiction H]
  end.

(** C7, amended.  On a profile page that has every required element,
    whose four count texts are empty or digits and commas with at least
    one and at most 4300 digits, whose avatar image (and banner image, if there is one) carries a
    [src], and that has no timeline item and no photo-rail image,
    [extract_profile_contents] returns a bundle with no tweets and no
    media. *)
Theorem profile_without_timeline_is_empty (BeautifulSoup : str -> tag) (html : str) :
  Forall (fun sel => select_one (css sel) (BeautifulSoup html) <> None)
         required_selectors ->
  Forall (fun sel => forall el, select_one (css sel) (BeautifulSoup html) = Some el ->
                                count_text (strip (text el)) = true)
         stat_selectors ->
  (forall img, select_one (css ".profile-card-avatar img") (BeautifulSoup html) = Some img ->
               has_src img = true) ->
  (forall img, select_one (css ".profile-banner img") (BeautifulSoup html) = Some img ->
               has_src img = true) ->
  select (css ".timeline-item") (BeautifulSoup html) = [] ->
  select (css ".photo-rail-grid a img") (BeautifulSoup html) = [] ->
  exists bundle,
    extract_profile_contents BeautifulSoup html = Return bundle
    /\ Bundle.tweets bundle = [] /\ Bundle.media bundle = [].
Proof.
  intros Hreq Hstat Havatar Hbanner Htimeline Hrail.
  unfold required_selectors in Hreq. unfold stat_selectors in Hstat.
  split_Forall Hreq. split_Forall Hstat.
  unfold extract_profile_contents. cbv zeta.
  rewrite Htimeline, Hrail.
  required fullname. required username. 
  destruct (select_one (css ".profile-bio p") (BeautifulSoup html)) as [bio|];
  destruct (select_one (css ".profile-location span:nth-of-type(2)") (BeautifulSoup html))
    as [location|].
  all: required joined; required posts; required following; required followers;
       required likes; required avatar.
  all: cbn [bind stripped_text dot_text].
  all: repeat match goal with
         | H : forall el, Some ?x = Some el -> count_text _ = true |- _ =>
             let n := fresh "n" in let E := fresh "E" in
             destruct (stat_cleaner_count_text _ (H x eq_refl)) as [n E];
             rewrite E; clear H E; cbn [bind]
         end.
  all: destruct (image_url_has_src avatar (Havatar avatar eq_refl)) as [u ->]; cbn [bind].
  all: destruct (select_one (css ".profile-banner img") (BeautifulSoup html)) as [banner|] eqn:Eb.
  all: try (destruct (image_url_has_src banner (Hbanner banner eq_refl)) as [v ->]).
  all: cbn [bind for_each]; eexists; split; [reflexivity|split; reflexivity].
Qed.

Lemma profile_without_timeline_is_empty_witness :
  exists bundle,
    extract_profile_contents (parsed_as profile_minimal) (lit "<html>") = Return bundle
    /\ Bundle.tweets bundle = [] /\ Bundle.media bundle = [].
Proof.
  apply (profile_without_timeline_is_empty (parsed_as profile_minimal) (lit "<html>")).
  - unfold required_selectors. repeat constructor; discriminate.
  - unfold stat_selectors.
    repeat (constructor; [intros el H; vm_compute in H; injection H as <-; reflexivity|]).
    constructor.
  - intros img H. vm_compute in H. injection H as <-. reflexivity.
  - intros img H. vm_compute in H. discriminate H.
  - reflexivity.
  - reflexivity.
Defined.

(** C7 as stated fails on a page that has every required element, no
    timeline item and no photo-rail image, but shows a tweet count that
    is not a number: [int] raises. *)
Lemma profile_with_odd_count_raises :
  forallb (fun sel => found (select_one (css sel) profile_with_odd_count))
          required_selectors = true
  /\ select (css ".timeline-item") profile_with_odd_count = []
  /\ select (css ".photo-rail-grid a img") profile_with_odd_count = []
  /\ extract_profile_contents (parsed_as profile_with_odd_count) (lit "<html>")
     = Raise (ValueError (lit "n/a"))
  /\ (forall bundle,
       extract_profile_contents (parsed_as profile_with_odd_count) (lit "<html>")
       <> Return bundle).
Proof. repeat split; try reflexivity. intros bundle H. vm_compute in H. discriminate H. Qed.

(** C8, amended.  On a search page where every timeline item has an
    avatar image, a [src] on the first of its avatar images, a full name
    and a user name,
    [extract_search_contents] returns exactly one record per timeline
    item, in document order: the i-th record is the one read from the
    i-th item. *)
Theorem search_returns_one_user_per_item (BeautifulSoup : str -> tag) (html : str) :
  forallb complete_item (select (css ".timeline-item") (BeautifulSoup html)) = true ->
  exists users,
    extract_search_contents BeautifulSoup html = Return users
    /\ List.length users = List.length (select (css ".timeline-item") (BeautifulSoup html))
    /\ Forall2 (fun item user => user_data item = Return user)
               (select (css ".timeline-item") (BeautifulSoup html)) users.
Proof.
  intros H. unfold extract_search_contents. cbv zeta.
  destruct (for_each_all user_data (select (css ".timeline-item") (BeautifulSoup html)))
    as (users & Hret & Hall).
  - intros item Hin. apply user_data_complete.
    rewrite forallb_forall in H. now apply H.
  - exists users. split; [assumption|]. split; [|assumption].
    symmetry. exact (Forall2_length Hall).
Qed.

(** Two results in the markup give two records, Alice before Bob. *)
Lemma search_returns_one_user_per_item_witness :
  exists users,
    extract_search_contents (parsed_as search_two) (lit "<html>") = Return users
    /\ List.length users = 2%nat
    /\ map User.full_name users = [lit "Alice A"; lit "Bob B"].
Proof.
  destruct (search_returns_one_user_per_item (parsed_as search_two) (lit "<html>") eq_refl)
    as (users & Hret & Hlen & _).
  exists users. split; [assumption|]. split; [exact Hlen|].
  vm_compute in Hret. injection Hret as <-. reflexivity.
Defined.

(** C8 as stated fails on a search page whose only timeline item has no
    avatar image: the page has one item, and no list is returned. *)
Lemma search_without_avatar_raises :
  List.length (select (css ".timeline-item") search_without_avatar) = 1%nat
  /\ extract_search_contents (parsed_as search_without_avatar) (lit "<html>")
     = Raise IndexError
  /\ (forall users,
       extract_search_contents (parsed_as search_without_avatar) (lit "<html>")
       <> Return users).
Proof. repeat split; try reflexivity. intros users H. vm_compute in H. discriminate H. Qed.

(** It is the first avatar image that counts: with a [src] only on a
    second one, the item is not complete and the call raises. *)
Example search_first_avatar_without_src_raises :
  forallb complete_item
    (select (css ".timeline-item") search_first_avatar_without_src) = false
  /\ extract_search_contents (parsed_as search_first_avatar_without_src) (lit "<html>")
     = Raise (KeyError (lit "src")).
Proof. split; reflexivity. Qed.

(** C10.  In every record [extract_search_contents] returns, [username]
    is the stripped text of the item's [.username] element, not passed
    through [username_cleaner]; the [username] of the profile that
    [extract_profile_contents] returns is the stripped text of the
    [.profile-card-username] element passed through [username_cleaner].
    So a leading [@] stays in a search result and goes from a profile. *)
Theorem search_username_is_raw :
  (forall (BeautifulSoup : str -> tag) (html : str) (users : list User.t),
      extract_search_contents BeautifulSoup html = Return users ->
      Forall2 (fun item user =>
                 exists el, select_one (css ".username") item = Some el
                            /\ User.username user = strip (text el))
              (select (css ".timeline-item") (BeautifulSoup html)) users)
  /\ (forall (BeautifulSoup : str -> tag) (html : str) (bundle : Bundle.t),
         extract_profile_contents BeautifulSoup html = Return bundle ->
         exists el, select_one (css ".profile-card-username") (BeautifulSoup html) = Some el
                    /\ Profile.username (Bundle.profile bundle)
                       = username_cleaner (strip (text el)))
  /\ (forall shown : str,
         In (ch "@") shown ->
         ~ In (ch "@") (username_cleaner shown) /\ username_cleaner shown <> shown).
Proof.
  split; [|split].
  - intros BeautifulSoup html users H.
    unfold extract_search_contents in H. cbv zeta in H.
    apply for_each_inv in H.
    induction H as [|item user items users' Hu _ IH]; constructor; [|exact IH].
    now apply user_data_username.
  - intros BeautifulSoup html bundle H.
    unfold extract_profile_contents in H. cbv zeta in H.
    destruct (select_one (css ".profile-card-fullname") (BeautifulSoup html));
      [|discriminate].
    destruct (select_one (css ".profile-card-username") (BeautifulSoup html)) as [el|];
      [|discriminate].
    exists el. split; [reflexivity|].
    cbn [bind stripped_text dot_text] in H.
    repeat match type of H with
           | bind ?m _ = _ => destruct m; cbn [bind] in H; [|discriminate]
           end.
    injection H as <-. reflexivity.
  - intros shown Hin.
    rewrite (username_cleaner_filter shown).
    assert (Hout : ~ In (ch "@") (filter (fun c => negb (c =? ch "@")) shown)).
    { intros H. apply filter_In in H as [_ H]. now rewrite N.eqb_refl in H. }
    split; [exact Hout|]. intros E. rewrite E in Hout. now apply Hout.
Qed.

Lemma search_username_is_raw_witness :
  extract_search_contents (parsed_as search_two) (lit "<html>") = Return search_two_users
  /\ map User.username search_two_users = [lit "@alice"; lit "@bob"]
  /\ Forall2 (fun item user =>
                 exists el, select_one (css ".username") item = Some el
                            /\ User.username user = strip (text el))
              (select (css ".timeline-item") search_two) search_two_users.
Proof.
  split; [reflexivity|]. split; [reflexivity|].
  apply (proj1 search_username_is_raw (parsed_as search_two) (lit "<html>")).
  reflexivity.
Defined.

(* ================================================================= *)
(** ** Page load *)

Section PageLoadFacts.
Import Fetcher PageLoad.

Variable Driver : Type.
Variable Fault : Type.
Variable fault_str : Fault -> str.
Variable driver_get : str -> Driver -> result Fault unit * Driver.
Variable time_sleep : Z -> Driver -> Driver.
Variable driver_page_source : Driver -> result Fault str * Driver.

(** The body the two page-load methods share, for any URL. *)
Lemma page_load_body_loads (url : str) :
  loads fault_str driver_get time_sleep driver_page_source url
    (try_except
       (io_bind (get driver_get url) (fun _ =>
        io_bind (sleep time_sleep 5) (fun _ =>
        io_bind (page_source driver_page_source) (fun source =>
        ret (Some source)))))
       (fun e =>
        io_bind (print (lit "Error: " ++ fault_str e)) (fun _ => ret None))).
Proof.
  intros w. unfold driver_outcome.
  unfold try_except, io_bind, get, sleep, page_source, print, ret.
  destruct (driver_get url (driver w)) as [[[]|e] d1].
  - cbn [driver trace fst snd].
    destruct (driver_page_source (time_sleep 5 d1)) as [[source|e] d2].
    + exists [Navigate url; Sleep 5; ReadSource]. cbn [driver trace fst snd].
      rewrite <- !app_assoc. repeat split; reflexivity.
    + exists [Navigate url; Sleep 5; ReadSource; Print (lit "Error: " ++ fault_str e)].
      cbn [driver trace fst snd].
      rewrite <- !app_assoc. repeat split; reflexivity.
  - exists [Navigate url; Print (lit "Error: " ++ fault_str e)].
    cbn [driver trace fst snd].
    rewrite <- !app_assoc. repeat split; reflexivity.
Qed.

(** C3.  Whatever the URL and whatever the driver does, both page-load
    methods navigate exactly once and raise nothing: when navigation and
    reading the source succeed they return the markup; when either faults
    they return [None] after printing one line that names the fault. *)
Theorem page_load_returns_markup_or_none :
  (forall username : str,
      loads fault_str driver_get time_sleep driver_page_source
        (profile_url username)
        (profile_html_contents fault_str driver_get time_sleep driver_page_source
           username))
  /\ (forall (query : str) (from_date to_date : option str),
         loads fault_str driver_get time_sleep driver_page_source
           (search_url query from_date to_date)
           (search_html_contents fault_str driver_get time_sleep driver_page_source
              query from_date to_date)).
Proof.
  split.
  - intros username. exact (page_load_body_loads (profile_url username)).
  - intros query from_date to_date.
    exact (page_load_body_loads (search_url query from_date to_date)).
Qed.

(** C4.  Without dates the search URL carries [since=None] and
    [until=None]: the absent dates are written out as the text [None].
    This is the URL [search_html_contents] sends the driver to. *)
Theorem search_url_without_dates (query : str) :
  search_url query None None
  = DOMAIN ++ lit "/search?f=users&q=" ++ query ++ lit "&since=None&until=None"
  /\ forall w : world Driver,
       exists events,
         trace (snd (search_html_contents fault_str driver_get time_sleep
                       driver_page_source query None None w))
         = trace w
             ++ Navigate (lit "https://nitter.net/search?f=users&q=" ++ query
                            ++ lit "&since=None&until=None")
             :: events.
Proof.
  assert (E : search_url query None None
              = DOMAIN ++ lit "/search?f=users&q=" ++ query
                  ++ lit "&since=None&until=None").
  { reflexivity. }
  split; [exact E|].
  intros w.
  change (lit "https://nitter.net/search?f=users&q=" ++ query
            ++ lit "&since=None&until=None")
    with (DOMAIN ++ lit "/search?f=users&q=" ++ query ++ lit "&since=None&until=None").
  rewrite <- E.
  unfold search_html_contents. cbv zeta.
  generalize (search_url query None None). intros url.
  unfold try_except, io_bind, get, sleep, page_source, print, ret.
  destruct (driver_get url (driver w)) as [[[]|e] d1].
  - cbn [driver trace fst snd].
    destruct (driver_page_source (time_sleep 5 d1)) as [[source|e] d2];
      cbn [driver trace fst snd]; rewrite <- !app_assoc; eexists; reflexivity.
  - cbn [driver trace fst snd]. rewrite <- !app_assoc. eexists. reflexivity.
Qed.

End PageLoadFacts.

(** The two outcomes on the example driver: a profile page is served, a
    search times out. *)
Example profile_page_is_served :
  Fetcher.profile_html_contents (fun e => e) toy_get toy_sleep toy_page_source
    (lit "jane") (Fetcher.mk_world [] [])
  = (Return (Some (lit "<html>https://nitter.net/jane/search</html>")),
     Fetcher.mk_world [lit "https://nitter.net/jane/search"]
       [Fetcher.Navigate (lit "https://nitter.net/jane/search");
        Fetcher.Sleep 5; Fetcher.ReadSource]).
Proof. reflexivity. Qed.

Example search_times_out :
  Fetcher.search_html_contents (fun e => e) toy_get toy_sleep toy_page_source
    (lit "jane") None None (Fetcher.mk_world [] [])
  = (Return None,
     Fetcher.mk_world []
       [Fetcher.Navigate
          (lit "https://nitter.net/search?f=users&q=jane&since=None&until=None");
        Fetcher.Print (lit "Error: Message: timeout")]).
Proof. reflexivity. Qed.

(* ================================================================= *)
(** ** More on the normalizers *)

Import Shape Timelines.

(** X1.  [stat_cleaner] does not care where the commas stand: on any
    text of digits and commas with at least one and at most 4300 digits
    it returns the number the digits denote, whether or not the commas
    group the digits by three. *)
Theorem stat_cleaner_any_comma_placement (s : str) :
  digits_and_commas s = true -> existsb isdigit s = true ->
  within_digit_limit s = true ->
  stat_cleaner (Some s) = Return (decimal_value (filter isdigit s))
  /\ (0 <= decimal_value (filter isdigit s))%Z.
Proof.
  intros Hdc Hex Hlim. split; [now apply stat_cleaner_digits_and_commas|].
  unfold decimal_value.
  assert (G : forall d n, (0 <= n)%Z ->
                (0 <= fold_left (fun n c => (10 * n + digit_value c)%Z) d n)%Z).
  { induction d as [|c d IH]; intros n Hn; [exact Hn|].
    cbn [fold_left]. apply IH. unfold digit_value. lia. }
  apply G. lia.
Qed.

Lemma stat_cleaner_any_comma_placement_witness :
  stat_cleaner (Some (lit ",1,23,4,")) = Return 1234%Z /\ (0 <= 1234)%Z.
Proof.
  exact (stat_cleaner_any_comma_placement (lit ",1,23,4,") eq_refl eq_refl eq_refl).
Defined.

Lemma rev_digits_head (d : str) :
  d <> [] -> forallb isdigit d = true ->
  exists x r, rev d = x :: r /\ isdigit x = true.
Proof.
  intros Hne H. destruct (rev d) as [|x r] eqn:E.
  - apply (f_equal (@rev N)) in E. rewrite rev_involutive in E. now subst d.
  - exists x, r. split; [reflexivity|].
    rewrite forallb_forall in H. apply H, in_rev. rewrite E. now left.
Qed.

(** [int] reads a sign before the digits. *)
Lemma int_of_signed_digits (d : str) :
  d <> [] -> forallb isdigit d = true ->
  (List.length d <= int_max_str_digits)%nat ->
  int (ch "-" :: d) = Return (- decimal_value d)%Z.
Proof.
  intros Hne H Hlen. unfold int. cbn [map].
  change (to_ascii (ch "-")) with (ch "-"). rewrite (digits_to_ascii d H).
  assert (E : strip_by c_isspace (ch "-" :: d) = ch "-" :: d).
  { unfold strip_by, rstrip_by.
    change (lstrip_by c_isspace (ch "-" :: d)) with (ch "-" :: d).
    change (rev (ch "-" :: d)) with (rev d ++ [ch "-"]).
    destruct (rev_digits_head d Hne H) as (x & r & Er & Hx). rewrite Er.
    cbn [app lstrip_by]. rewrite (digit_not_space x Hx).
    change (x :: r ++ [ch "-"]) with ((x :: r) ++ [ch "-"]). rewrite <- Er.
    rewrite rev_app_distr, rev_involutive. reflexivity. }
  rewrite E. change (ch "-" =? ch "-") with true. cbv iota.
  destruct d as [|c d]; [contradiction|].
  pose proof H as H'. cbn [forallb] in H'. apply andb_true_iff in H' as [Hc _].
  unfold int_unsigned. rewrite Hc.
  rewrite (int_digits_all (c :: d) 0%Z H), (filter_all _ _ H).
  now rewrite (proj2 (Nat.ltb_ge _ _) Hlen).
Qed.

(** X2.  [stat_cleaner] accepts a minus sign: on a text of digits and
    commas, with at least one and at most 4300 digits, that follows a [-]
    it returns the negated number, so a count it returns can be
    negative. *)
Theorem stat_cleaner_accepts_minus (s : str) :
  digits_and_commas s = true -> existsb isdigit s = true ->
  within_digit_limit s = true ->
  stat_cleaner (Some (ch "-" :: s)) = Return (- decimal_value (filter isdigit s))%Z.
Proof.
  intros Hdc Hex Hlim. unfold stat_cleaner. cbn [truth].
  change (lit ",") with [ch ","]. change (lit "") with (@nil N).
  rewrite replace_char_by_nothing. cbn [filter].
  change (negb (ch "-" =? ch ",")) with true. cbv iota.
  rewrite (filter_commas_keeps_digits _ Hdc).
  apply int_of_signed_digits.
  - now apply filter_digit_nonempty.
  - apply forallb_filter_same.
  - now apply Nat.leb_le.
Qed.

Lemma stat_cleaner_accepts_minus_witness :
  stat_cleaner (Some (lit "-1,234")) = Return (-1234)%Z.
Proof.
  exact (stat_cleaner_accepts_minus (lit "1,234") eq_refl eq_refl eq_refl).
Defined.

Lemma lstrip_by_incl (space : N -> bool) (s : str) (c : N) :
  In c (lstrip_by space s) -> In c s.
Proof.
  induction s as [|x s IH]; cbn [lstrip_by]; [auto|].
  destruct (space x); [intros H; right; now apply IH|auto].
Qed.

Lemma strip_by_incl (space : N -> bool) (s : str) (c : N) :
  In c (strip_by space s) -> In c s.
Proof.
  unfold strip_by, rstrip_by. intros H.
  apply in_rev, lstrip_by_incl, in_rev in H. now apply lstrip_by_incl in H.
Qed.

Lemma isdigit_isdecimal (c : N) : isdigit c = true -> isdecimal c = true.
Proof. intros H. digit_cases c H. Qed.

(** A character that is no decimal digit of any script is no digit after
    the rewriting to ASCII either. *)
Lemma to_ascii_not_digit (c : N) : isdecimal c = false -> isdigit (to_ascii c) = false.
Proof.
  intros H. unfold to_ascii. destruct (c <? 127).
  - destruct (isdigit c) eqn:E; [|reflexivity].
    rewrite (isdigit_isdecimal c E) in H. discriminate.
  - destruct (isspace c); [reflexivity|].
    unfold isdecimal in H. destruct (to_decimal c); [discriminate|reflexivity].
Qed.

(** [int] has nothing to read in a text without a decimal digit. *)
Lemma int_without_digit (s : str) :
  (forall c, In c s -> isdecimal c = false) -> int s = Raise (ValueError s).
Proof.
  intros H. unfold int.
  assert (Hs : forall c, In c (strip_by c_isspace (map to_ascii s)) -> isdigit c = false).
  { intros c Hc. apply strip_by_incl, in_map_iff in Hc as (x & <- & Hx).
    now apply to_ascii_not_digit, H. }
  assert (U : forall b, (forall c, In c b -> isdigit c = false) -> int_unsigned b = None).
  { intros [|c b] Hb; [reflexivity|]. unfold int_unsigned.
    now rewrite (Hb c (or_introl eq_refl)). }
  destruct (strip_by c_isspace (map to_ascii s)) as [|c r]; [reflexivity|].
  destruct (c =? ch "-"); [|destruct (c =? ch "+")];
    rewrite U; try reflexivity; intros x Hx; apply Hs; auto; now right.
Qed.

(** X3.  On a non-empty text without any decimal digit, of whatever
    script, [stat_cleaner] raises [ValueError]. *)
Theorem stat_cleaner_without_digit_raises (s : str) :
  s <> [] -> existsb isdecimal s = false ->
  stat_cleaner (Some s) = Raise (ValueError (replace s (lit ",") (lit ""))).
Proof.
  intros Hne Hno. unfold stat_cleaner.
  destruct s as [|c s]; [contradiction|]. cbn [truth].
  apply int_without_digit. intros x Hx.
  change (lit ",") with [ch ","] in Hx. change (lit "") with (@nil N) in Hx.
  rewrite replace_char_by_nothing in Hx. apply filter_In in Hx as [Hx _].
  destruct (isdecimal x) eqn:E; [|reflexivity].
  assert (existsb isdecimal (c :: s) = true) by (apply existsb_exists; eauto).
  congruence.
Qed.

Lemma stat_cleaner_without_digit_raises_witness :
  stat_cleaner (Some (lit "K")) = Raise (ValueError (lit "K"))
  /\ stat_cleaner (Some (lit " ")) = Raise (ValueError (lit " ")).
Proof.
  split.
  - apply (stat_cleaner_without_digit_raises (lit "K")); [discriminate|reflexivity].
  - apply (stat_cleaner_without_digit_raises (lit " ")); [discriminate|reflexivity].
Defined.

(** X4.  The result of [username_cleaner] contains no [@]; cleaning twice
    is cleaning once; a text without [@] is returned as it is; and
    cleaning a concatenation is concatenating the cleaned parts. *)
Theorem username_cleaner_laws :
  (forall s, ~ In (ch "@") (username_cleaner s))
  /\ (forall s, username_cleaner (username_cleaner s) = username_cleaner s)
  /\ (forall s, ~ In (ch "@") s -> username_cleaner s = s)
  /\ (forall a b, username_cleaner (a ++ b) = username_cleaner a ++ username_cleaner b).
Proof.
  assert (Hout : forall s, ~ In (ch "@") (username_cleaner s)).
  { intros s H. rewrite username_cleaner_filter in H.
    apply filter_In in H as [_ H]. now rewrite N.eqb_refl in H. }
  assert (Hid : forall s, ~ In (ch "@") s -> username_cleaner s = s).
  { intros s H. rewrite username_cleaner_filter.
    induction s as [|c s IH]; [reflexivity|]. cbn [filter].
    destruct (c =? ch "@") eqn:E.
    - apply N.eqb_eq in E. exfalso. apply H. now left.
    - cbn [negb]. f_equal. apply IH. intros Hin. apply H. now right. }
  repeat split.
  - exact Hout.
  - intros s. apply Hid, Hout.
  - exact Hid.
  - intros a b. rewrite !username_cleaner_filter. apply filter_app.
Qed.

Lemma username_cleaner_laws_witness :
  username_cleaner (lit "jane_doe") = lit "jane_doe".
Proof.
  apply (proj1 (proj2 (proj2 username_cleaner_laws))).
  intros H. vm_compute in H. repeat (destruct H as [H|H]; [discriminate H|]). exact H.
Defined.

(** X5.  The result of [convert_nitter_image_to_twitter] never begins
    with the image-proxy prefix; when the input begins with it, the result
    begins with the CDN root. *)
Theorem convert_leaves_no_mirror_prefix (url : str) :
  startswith (convert_nitter_image_to_twitter url) MIRROR_PIC = false
  /\ (startswith url MIRROR_PIC = true ->
      startswith (convert_nitter_image_to_twitter url) CDN_ROOT = true).
Proof.
  destruct (startswith url MIRROR_PIC) eqn:E.
  - rewrite (startswith_split _ _ E). split.
    + apply convert_result_not_mirror.
    + intros _. rewrite convert_on_mirror_url. apply startswith_app.
  - rewrite (convert_on_other_url url E). split; [exact E|discriminate].
Qed.

Lemma convert_leaves_no_mirror_prefix_witness :
  startswith (convert_nitter_image_to_twitter (lit "https://nitter.net/pic/media%2Fx.jpg"))
    CDN_ROOT = true.
Proof.
  apply (proj2 (convert_leaves_no_mirror_prefix (lit "https://nitter.net/pic/media%2Fx.jpg"))).
  reflexivity.
Defined.

(** X6.  On a URL that begins with the image-proxy prefix and whose
    remainder does not contain that prefix again, the result is the CDN
    root followed by the percent-decoded remainder. *)
Theorem convert_decodes_remainder (rest : str) :
  contains rest MIRROR_PIC = false ->
  convert_nitter_image_to_twitter (MIRROR_PIC ++ rest) = CDN_ROOT ++ unquote rest.
Proof.
  intros H. rewrite convert_on_mirror_url. now rewrite (replace_absent _ _ _ H).
Qed.

Lemma convert_decodes_remainder_witness :
  convert_nitter_image_to_twitter (lit "https://nitter.net/pic/media%2Fx.jpg%3Fname%3Dsmall")
  = lit "https://pbs.twimg.com/media/x.jpg?name=small".
Proof.
  change (lit "https://nitter.net/pic/media%2Fx.jpg%3Fname%3Dsmall")
    with (MIRROR_PIC ++ lit "media%2Fx.jpg%3Fname%3Dsmall").
  rewrite (convert_decodes_remainder (lit "media%2Fx.jpg%3Fname%3Dsmall") eq_refl).
  reflexivity.
Defined.

(* ================================================================= *)
(** ** More on the extraction *)

Ltac bind_inv H :=
  repeat match type of H with
         | bind ?m _ = Return _ =>
             let x := fresh "x" in
             let E := fresh "E" in
             destruct m as [x|] eqn:E; cbn [bind] in H; [|discriminate H]
         end.

Ltac bind_raises :=
  repeat match goal with
         | |- exists e, bind ?m _ = Raise e =>
             let x := fresh "x" in
             let E := fresh "E" in
             destruct m as [x|] eqn:E; cbn [bind]; [|eexists; reflexivity]
         end.

Lemma optional_step (o : option tag) (x : str) :
  match o with
  | Some b => stripped_text (Some b)
  | None => Return (lit "")
  end = Return x ->
  x = optional_text o.
Proof. destruct o; cbn; intros H; now injection H as <-. Qed.

Lemma for_each_raises {E A B} (f : A -> result E B) (l : list A) (x : A) (e : E) :
  In x l -> f x = Raise e -> exists e', for_each f l = Raise e'.
Proof.
  induction l as [|y l IH]; intros Hin Hx; [contradiction|].
  cbn [for_each]. destruct (f y) as [b|e0] eqn:Ey; [|eexists; reflexivity].
  destruct Hin as [->|Hin]; [congruence|].
  destruct (IH Hin Hx) as [e' ->]. eexists; reflexivity.
Qed.

(** What a returned bundle is made of. *)
Lemma extract_profile_contents_inv (BeautifulSoup : str -> tag) (html : str)
    (bundle : Bundle.t) :
  extract_profile_contents BeautifulSoup html = Return bundle ->
  exists fn un jd t1 t2 t3 t4 n1 n2 n3 n4 avatar banner,
    stripped_text (select_one (css ".profile-card-fullname") (BeautifulSoup html)) = Return fn
    /\ stripped_text (select_one (css ".profile-card-username") (BeautifulSoup html)) = Return un
    /\ stripped_text (select_one (css ".profile-joindate span") (BeautifulSoup html)) = Return jd
    /\ stripped_text (select_one (css ".posts .profile-stat-num") (BeautifulSoup html)) = Return t1
    /\ stripped_text (select_one (css ".following .profile-stat-num") (BeautifulSoup html)) = Return t2
    /\ stripped_text (select_one (css ".followers .profile-stat-num") (BeautifulSoup html)) = Return t3
    /\ stripped_text (select_one (css ".likes .profile-stat-num") (BeautifulSoup html)) = Return t4
    /\ stat_cleaner (Some t1) = Return n1 /\ stat_cleaner (Some t2) = Return n2
    /\ stat_cleaner (Some t3) = Return n3 /\ stat_cleaner (Some t4) = Return n4
    /\ image_url (select_one (css ".profile-card-avatar img") (BeautifulSoup html)) = Return avatar
    /\ match select_one (css ".profile-banner img") (BeautifulSoup html) with
       | Some b => image_url (Some b)
       | None => Return (lit "")
       end = Return banner
    /\ for_each tweet_data (select (css ".timeline-item") (BeautifulSoup html))
       = Return (Bundle.tweets bundle)
    /\ for_each (fun img => image_url (Some img))
         (select (css ".photo-rail-grid a img") (BeautifulSoup html))
       = Return (Bundle.media bundle)
    /\ Bundle.profile bundle
       = Profile.mk fn (username_cleaner un)
           (optional_text (select_one (css ".profile-bio p") (BeautifulSoup html)))
           (optional_text (select_one (css ".profile-location span:nth-of-type(2)")
                             (BeautifulSoup html)))
           (strip (replace jd (lit "Joined") (lit "")))
           n1 n2 n3 n4 avatar banner.
Proof.
  intros H. unfold extract_profile_contents in H. cbv zeta in H.
  bind_inv H. injection H as <-.
  apply optional_step in E1, E2. subst.
  do 13 eexists. repeat split; eassumption || reflexivity.
Qed.

(** Every tag below a node has a parent. *)
Lemma descendants_from_have_parent :
  forall (n : node) (path : list frame) (t : tag),
    In t (descendants_from path n) -> t_path t <> [].
Proof.
  fix IH 1. intros [s|s|name classes attrs children] path t; cbn [descendants_from];
    try contradiction.
  generalize (@nil node) as before.
  induction children as [|k after IHc]; intros before Hin; [contradiction|].
  apply in_app_or in Hin as [Hin|Hin].
  - destruct k; try contradiction. destruct Hin as [<-|[]]. discriminate.
  - apply in_app_or in Hin as [Hin|Hin].
    + exact (IH k _ t Hin).
    + exact (IHc _ Hin).
Qed.

Lemma select_one_has_parent (sel : selector) (scope found : tag) :
  select_one sel scope = Some found -> exists p, parent found = Some p.
Proof.
  unfold select_one, select. intros H.
  destruct (filter (matches sel) (descendants scope)) as [|x r] eqn:E; [discriminate|].
  injection H as ->.
  assert (Hin : In found (descendants scope)).
  { apply (proj1 (filter_In (matches sel) found (descendants scope))).
    rewrite E. now left. }
  apply descendants_from_have_parent in Hin.
  unfold parent. destruct (t_path found); [contradiction|]. eexists; reflexivity.
Qed.

(** The three counts of a tweet are read without a fault. *)
Lemma icon_count_returns (sel : selector) (tweet : tag) :
  exists shown, icon_count (select_one sel tweet) = Return shown.
Proof.
  destruct (select_one sel tweet) as [icon|] eqn:E; cbn [icon_count].
  - destruct (select_one_has_parent _ _ _ E) as [p ->]. eexists; reflexivity.
  - eexists; reflexivity.
Qed.

Lemma image_url_inv (img : tag) (url : str) :
  image_url (Some img) = Return url ->
  exists src, assoc (lit "src") (t_attrs img) = Some src
              /\ url = convert_nitter_image_to_twitter (DOMAIN ++ src).
Proof.
  unfold image_url, subscript, getitem. intros H.
  destruct (assoc (lit "src") (t_attrs img)) as [src|]; [|discriminate].
  cbn [bind] in H. injection H as <-. now exists src.
Qed.

Lemma image_url_returns_has_src (img : tag) (url : str) :
  image_url (Some img) = Return url -> has_src img = true.
Proof.
  intros H. destruct (image_url_inv _ _ H) as (src & E & _).
  unfold has_src. now rewrite E.
Qed.

(** What a returned tweet is made of. *)
Lemma tweet_data_inv (tweet : tag) (t : Tweet.t) :
  tweet_data tweet = Return t ->
  exists images date likes comments retweets link,
    for_each (fun img => image_url (Some img)) (select (css ".attachment.image img") tweet)
    = Return images
    /\ stripped_text (select_one (css ".tweet-date a") tweet) = Return date
    /\ icon_count (select_one (css ".icon-heart") tweet) = Return likes
    /\ icon_count (select_one (css ".icon-comment") tweet) = Return comments
    /\ icon_count (select_one (css ".icon-retweet") tweet) = Return retweets
    /\ match select_one (css ".tweet-link") tweet with
       | Some l => getitem l (lit "href")
       | None => Return (lit "")
       end = Return link
    /\ t = Tweet.mk (optional_text (select_one (css ".tweet-content") tweet))
             date likes comments retweets link images
             (option_map (fun x => strip (text x))
                (select_one (css ".retweet-header div") tweet))
             (found (select_one (css ".retweet-header div") tweet))
             (found (select_one (css ".tweet-body .replying-to a") tweet))
             (option_map (fun x => strip (text x))
                (select_one (css ".tweet-body .replying-to a") tweet)).
Proof.
  intros H. unfold tweet_data in H. cbv zeta in H.
  bind_inv H. injection H as <-.
  apply optional_step in E0. subst.
  do 6 eexists. repeat split; eassumption || reflexivity.
Qed.

Lemma for_each_images_returns (imgs : list tag) :
  forallb has_src imgs = true ->
  exists urls, for_each (fun img => image_url (Some img)) imgs = Return urls.
Proof.
  intros H.
  destruct (for_each_all (fun img => image_url (Some img)) imgs) as (urls & Hu & _).
  - intros img Hin. apply image_url_has_src.
    rewrite forallb_forall in H. now apply H.
  - now exists urls.
Qed.

Lemma for_each_images_inv (imgs : list tag) (urls : list str) :
  for_each (fun img => image_url (Some img)) imgs = Return urls ->
  forallb has_src imgs = true.
Proof.
  intros H. apply for_each_inv in H.
  induction H as [|img url imgs urls Hi _ IH]; [reflexivity|].
  cbn [forallb]. now rewrite (image_url_returns_has_src _ _ Hi), IH.
Qed.

Lemma for_each_returns_each {E A B} (f : A -> result E B) (l : list A) (ys : list B) (x : A) :
  for_each f l = Return ys -> In x l -> exists y, In y ys /\ f x = Return y.
Proof.
  intros H. apply for_each_inv in H.
  induction H as [|a b l' ys' Hab _ IH]; intros Hin; [contradiction|].
  destruct Hin as [<-|Hin].
  - exists b. split; [now left|assumption].
  - destruct (IH Hin) as (y & Hy & Hf). exists y. split; [now right|assumption].
Qed.

Lemma for_each_results {E A B} (f : A -> result E B) (l : list A) (ys : list B) (y : B) :
  for_each f l = Return ys -> In y ys -> exists x, In x l /\ f x = Return y.
Proof.
  intros H. apply for_each_inv in H.
  induction H as [|a b l' ys' Hab _ IH]; intros Hin; [contradiction|].
  destruct Hin as [<-|Hin].
  - exists a. split; [now left|assumption].
  - destruct (IH Hin) as (x & Hx & Hf). exists x. split; [now right|assumption].
Qed.

Lemma convert_never_mirror (url : str) :
  startswith (convert_nitter_image_to_twitter url) MIRROR_PIC = false.
Proof.
  destruct (startswith url MIRROR_PIC) eqn:E.
  - rewrite (startswith_split _ _ E). apply convert_result_not_mirror.
  - now rewrite (convert_on_other_url url E).
Qed.

Lemma image_url_never_mirror (img : tag) (url : str) :
  image_url (Some img) = Return url -> startswith url MIRROR_PIC = false.
Proof.
  intros H. destruct (image_url_inv _ _ H) as (src & _ & ->).
  apply convert_never_mirror.
Qed.

Lemma username_cleaner_no_at (s : str) : ~ In (ch "@") (username_cleaner s).
Proof.
  intros H. rewrite username_cleaner_filter in H.
  apply filter_In in H as [_ H]. now rewrite N.eqb_refl in H.
Qed.

Lemma tweet_data_complete_iff (tweet : tag) :
  (exists t, tweet_data tweet = Return t) <-> complete_tweet tweet = true.
Proof.
  unfold complete_tweet. split.
  - intros [t H]. apply tweet_data_inv in H.
    destruct H as (images & date & likes & comments & retweets & link
                   & Himg & Hdate & _ & _ & _ & Hlink & _).
    rewrite (for_each_images_inv _ _ Himg).
    destruct (select_one (css ".tweet-date a") tweet); [|discriminate].
    destruct (select_one (css ".tweet-link") tweet) as [l|]; [|reflexivity].
    unfold getitem in Hlink. unfold has_href.
    destruct (assoc (lit "href") (t_attrs l)); [reflexivity|discriminate].
  - intros H. apply andb_true_iff in H as [H Hlink].
    apply andb_true_iff in H as [Hdate Himg].
    unfold tweet_data. cbv zeta.
    destruct (for_each_images_returns _ Himg) as [images ->]. cbn [bind].
    destruct (select_one (css ".tweet-date a") tweet) as [d|]; [|discriminate].
    destruct (icon_count_returns (css ".icon-heart") tweet) as [likes ->].
    destruct (icon_count_returns (css ".icon-comment") tweet) as [comments ->].
    destruct (icon_count_returns (css ".icon-retweet") tweet) as [retweets ->].
    destruct (select_one (css ".tweet-content") tweet);
      cbn [bind stripped_text dot_text];
      (destruct (select_one (css ".tweet-link") tweet) as [l|];
       [unfold has_href in Hlink; unfold getitem;
        destruct (assoc (lit "href") (t_attrs l)); [|discriminate]|]);
      cbn [bind]; eexists; reflexivity.
Qed.

(** X7.  A timeline item is extracted exactly when it has a date link, a
    [src] on each of its attachment images and, if it has a tweet link,
    an [href] on it.  Nothing else in an item can make [tweet_data]
    raise: body text, counts, retweet and reply marks are all optional. *)
Theorem tweet_data_returns_iff_complete (tweet : tag) :
  (exists t, tweet_data tweet = Return t) <-> complete_tweet tweet = true.
Proof. exact (tweet_data_complete_iff tweet). Qed.

Lemma tweet_data_returns_iff_complete_witness :
  forallb complete_tweet (select (css ".timeline-item") profile_with_tweets) = true
  /\ exists items,
       select (css ".timeline-item") profile_with_tweets = items
       /\ Forall (fun item => exists t, tweet_data item = Return t) items.
Proof.
  split; [reflexivity|]. eexists. split; [reflexivity|].
  repeat constructor;
    apply (proj2 (tweet_data_returns_iff_complete _)); reflexivity.
Defined.

(** X8.  Every element of [required_selectors] is required: if any one
    of them matches nothing, [extract_profile_contents] raises and no
    bundle is returned. *)
Theorem profile_requires_every_element (BeautifulSoup : str -> tag) (html : str)
    (sel : string) :
  In sel required_selectors ->
  select_one (css sel) (BeautifulSoup html) = None ->
  exists e, extract_profile_contents BeautifulSoup html = Raise e.
Proof.
  intros Hin Hnone. unfold required_selectors in Hin. cbn [In] in Hin.
  unfold extract_profile_contents. cbv zeta.
  repeat (destruct Hin as [<-|Hin]; [rewrite Hnone; bind_raises; exfalso|]);
    try contradiction.
  all: match goal with
       | E : stripped_text None = Return _ |- _ => discriminate E
       | E : image_url None = Return _ |- _ => discriminate E
       end.
Qed.

Lemma profile_requires_every_element_witness :
  exists e, extract_profile_contents (parsed_as profile_without_fullname) (lit "<html>")
            = Raise e.
Proof.
  apply (profile_requires_every_element (parsed_as profile_without_fullname)
           (lit "<html>") ".profile-card-fullname").
  - now left.
  - reflexivity.
Defined.

(** X9.  The biography, the location and the banner are optional: in a
    returned bundle [bio] and [location] are the stripped text of their
    element, or empty when the element is missing, and [banner_image] is
    empty when there is no banner image. *)
Theorem profile_optional_fields (BeautifulSoup : str -> tag) (html : str)
    (bundle : Bundle.t) :
  extract_profile_contents BeautifulSoup html = Return bundle ->
  Profile.bio (Bundle.profile bundle)
  = optional_text (select_one (css ".profile-bio p") (BeautifulSoup html))
  /\ Profile.location (Bundle.profile bundle)
     = optional_text (select_one (css ".profile-location span:nth-of-type(2)")
                        (BeautifulSoup html))
  /\ (select_one (css ".profile-banner img") (BeautifulSoup html) = None ->
      Profile.banner_image (Bundle.profile bundle) = lit "").
Proof.
  intros H. apply extract_profile_contents_inv in H.
  destruct H as (fn & un & jd & t1 & t2 & t3 & t4 & n1 & n2 & n3 & n4 & avatar & banner & H).
  destruct H as (_ & _ & _ & _ & _ & _ & _ & _ & _ & _ & _ & _ & Hb & _ & _ & H).
  rewrite H. cbn [Profile.bio Profile.location Profile.banner_image].
  repeat split. intros Hnone. rewrite Hnone in Hb. now injection Hb as <-.
Qed.

Lemma profile_optional_fields_witness :
  exists bundle,
    extract_profile_contents (parsed_as profile_minimal) (lit "<html>") = Return bundle
    /\ Profile.bio (Bundle.profile bundle) = lit ""
    /\ Profile.location (Bundle.profile bundle) = lit ""
    /\ Profile.banner_image (Bundle.profile bundle) = lit "".
Proof.
  destruct (extract_profile_contents (parsed_as profile_minimal) (lit "<html>"))
    as [bundle|] eqn:E; [|vm_compute in E; discriminate E].
  exists bundle. split; [reflexivity|].
  destruct (profile_optional_fields (parsed_as profile_minimal) (lit "<html>") bundle E)
    as (Hbio & Hloc & Hbanner).
  rewrite Hbio, Hloc, (Hbanner eq_refl). repeat split; reflexivity.
Defined.

(** X10.  The [username] of a returned profile contains no [@]. *)
Theorem profile_username_has_no_at (BeautifulSoup : str -> tag) (html : str)
    (bundle : Bundle.t) :
  extract_profile_contents BeautifulSoup html = Return bundle ->
  ~ In (ch "@") (Profile.username (Bundle.profile bundle)).
Proof.
  intros H. apply extract_profile_contents_inv in H.
  destruct H as (fn & un & jd & t1 & t2 & t3 & t4 & n1 & n2 & n3 & n4 & avatar & banner & H).
  repeat match type of H with _ /\ _ => destruct H as [? H] end. rewrite H. cbn [Profile.username].
  apply username_cleaner_no_at.
Qed.

Lemma profile_username_has_no_at_witness :
  exists bundle,
    extract_profile_contents (parsed_as profile_minimal) (lit "<html>") = Return bundle
    /\ ~ In (ch "@") (Profile.username (Bundle.profile bundle)).
Proof.
  destruct (extract_profile_contents (parsed_as profile_minimal) (lit "<html>"))
    as [bundle|] eqn:E; [|vm_compute in E; discriminate E].
  exists bundle. split; [reflexivity|].
  exact (profile_username_has_no_at (parsed_as profile_minimal) (lit "<html>") bundle E).
Defined.

(** X11.  In a returned bundle the tweets follow the timeline items one
    to one and in document order, each tweet being the one read from its
    item, and the media follow the photo-rail images likewise, each URL
    being the normalized [DOMAIN + src] of its image. *)
Theorem bundle_lists_follow_markup (BeautifulSoup : str -> tag) (html : str)
    (bundle : Bundle.t) :
  extract_profile_contents BeautifulSoup html = Return bundle ->
  Forall2 (fun item t => tweet_data item = Return t)
          (select (css ".timeline-item") (BeautifulSoup html)) (Bundle.tweets bundle)
  /\ Forall2 (fun img url =>
                exists src, assoc (lit "src") (t_attrs img) = Some src
                            /\ url = convert_nitter_image_to_twitter (DOMAIN ++ src))
             (select (css ".photo-rail-grid a img") (BeautifulSoup html))
             (Bundle.media bundle)
  /\ List.length (Bundle.tweets bundle)
     = List.length (select (css ".timeline-item") (BeautifulSoup html))
  /\ List.length (Bundle.media bundle)
     = List.length (select (css ".photo-rail-grid a img") (BeautifulSoup html)).
Proof.
  intros H. apply extract_profile_contents_inv in H.
  destruct H as (fn & un & jd & t1 & t2 & t3 & t4 & n1 & n2 & n3 & n4 & avatar & banner & H).
  destruct H as (_ & _ & _ & _ & _ & _ & _ & _ & _ & _ & _ & _ & _ & Ht & Hm & _).
  apply for_each_inv in Ht, Hm.
  assert (Hm' : Forall2 (fun img url =>
                  exists src, assoc (lit "src") (t_attrs img) = Some src
                              /\ url = convert_nitter_image_to_twitter (DOMAIN ++ src))
                  (select (css ".photo-rail-grid a img") (BeautifulSoup html))
                  (Bundle.media bundle)).
  { induction Hm as [|img url imgs urls Hi _ IH]; constructor; [|exact IH].
    now apply image_url_inv. }
  repeat split; try assumption; symmetry.
  - exact (Forall2_length Ht).
  - exact (Forall2_length Hm).
Qed.

Lemma bundle_lists_follow_markup_witness :
  exists bundle,
    extract_profile_contents (parsed_as profile_with_tweets) (lit "<html>") = Return bundle
    /\ List.length (Bundle.tweets bundle) = 2%nat
    /\ Bundle.media bundle
       = [lit "https://pbs.twimg.com/media/x.jpg?name=small";
          lit "https://nitter.net/static/placeholder.png"].
Proof.
  destruct (extract_profile_contents (parsed_as profile_with_tweets) (lit "<html>"))
    as [bundle|] eqn:E; [|vm_compute in E; discriminate E].
  exists bundle. split; [reflexivity|].
  destruct (bundle_lists_follow_markup (parsed_as profile_with_tweets) (lit "<html>") bundle E)
    as (_ & _ & Hlen & _).
  split; [exact Hlen|].
  vm_compute in E. injection E as <-. reflexivity.
Defined.

(** X12.  No image URL in a returned bundle begins with the mirror's
    image-proxy prefix: not the profile image, not the banner image, no
    picture of a tweet and no photo-rail picture. *)
Theorem bundle_image_urls_leave_the_proxy (BeautifulSoup : str -> tag) (html : str)
    (bundle : Bundle.t) :
  extract_profile_contents BeautifulSoup html = Return bundle ->
  startswith (Profile.profile_image (Bundle.profile bundle)) MIRROR_PIC = false
  /\ startswith (Profile.banner_image (Bundle.profile bundle)) MIRROR_PIC = false
  /\ (forall t url, In t (Bundle.tweets bundle) -> In url (Tweet.images t) ->
                    startswith url MIRROR_PIC = false)
  /\ (forall url, In url (Bundle.media bundle) -> startswith url MIRROR_PIC = false).
Proof.
  intros H. apply extract_profile_contents_inv in H.
  destruct H as (fn & un & jd & t1 & t2 & t3 & t4 & n1 & n2 & n3 & n4 & avatar & banner & H).
  destruct H as (_ & _ & _ & _ & _ & _ & _ & _ & _ & _ & _ & Ha & Hb & Ht & Hm & Hp).
  rewrite Hp. cbn [Profile.profile_image Profile.banner_image].
  repeat split.
  - destruct (select_one (css ".profile-card-avatar img") (BeautifulSoup html)) as [img|];
      [now apply (image_url_never_mirror img)|discriminate].
  - destruct (select_one (css ".profile-banner img") (BeautifulSoup html)) as [img|];
      [now apply (image_url_never_mirror img)|now injection Hb as <-].
  - intros t url Hin Hurl.
    destruct (for_each_results _ _ _ _ Ht Hin) as (item & _ & Hitem).
    apply tweet_data_inv in Hitem.
    destruct Hitem as (images & date & likes & comments & retweets & link
                       & Himg & _ & _ & _ & _ & _ & ->).
    cbn [Tweet.images] in Hurl.
    destruct (for_each_results _ _ _ _ Himg Hurl) as (img & _ & Hi).
    now apply (image_url_never_mirror img).
  - intros url Hurl.
    destruct (for_each_results _ _ _ _ Hm Hurl) as (img & _ & Hi).
    now apply (image_url_never_mirror img).
Qed.

Lemma bundle_image_urls_leave_the_proxy_witness :
  exists bundle,
    extract_profile_contents (parsed_as profile_with_tweets) (lit "<html>") = Return bundle
    /\ startswith (Profile.profile_image (Bundle.profile bundle)) MIRROR_PIC = false.
Proof.
  destruct (extract_profile_contents (parsed_as profile_with_tweets) (lit "<html>"))
    as [bundle|] eqn:E; [|vm_compute in E; discriminate E].
  exists bundle. split; [reflexivity|].
  exact (proj1 (bundle_image_urls_leave_the_proxy (parsed_as profile_with_tweets)
                  (lit "<html>") bundle E)).
Defined.

(** X13.  In every tweet of a returned bundle the marks agree with the
    names: [is_retweet] holds exactly when [retweeted_by] is not [None],
    and [is_reply] exactly when [replying_to] is not [None]. *)
Theorem bundle_tweet_marks_agree (BeautifulSoup : str -> tag) (html : str)
    (bundle : Bundle.t) (t : Tweet.t) :
  extract_profile_contents BeautifulSoup html = Return bundle ->
  In t (Bundle.tweets bundle) ->
  (Tweet.is_retweet t = true <-> Tweet.retweeted_by t <> None)
  /\ (Tweet.is_reply t = true <-> Tweet.replying_to t <> None).
Proof.
  intros H Hin. apply extract_profile_contents_inv in H.
  destruct H as (fn & un & jd & t1 & t2 & t3 & t4 & n1 & n2 & n3 & n4 & avatar & banner & H).
  destruct H as (_ & _ & _ & _ & _ & _ & _ & _ & _ & _ & _ & _ & _ & Ht & _ & _).
  destruct (for_each_results _ _ _ _ Ht Hin) as (item & _ & Hitem).
  apply tweet_data_inv in Hitem.
  destruct Hitem as (images & date & likes & comments & retweets & link
                     & _ & _ & _ & _ & _ & _ & ->).
  cbn [Tweet.is_retweet Tweet.retweeted_by Tweet.is_reply Tweet.replying_to].
  destruct (select_one (css ".retweet-header div") item);
    destruct (select_one (css ".tweet-body .replying-to a") item);
    cbn; repeat split; congruence.
Qed.

Lemma bundle_tweet_marks_agree_witness :
  exists bundle,
    extract_profile_contents (parsed_as profile_with_tweets) (lit "<html>") = Return bundle
    /\ map Tweet.is_reply (Bundle.tweets bundle) = [false; true]
    /\ forall t, In t (Bundle.tweets bundle) ->
                 (Tweet.is_reply t = true <-> Tweet.replying_to t <> None).
Proof.
  destruct (extract_profile_contents (parsed_as profile_with_tweets) (lit "<html>"))
    as [bundle|] eqn:E; [|vm_compute in E; discriminate E].
  exists bundle. split; [reflexivity|]. split.
  - vm_compute in E. injection E as <-. reflexivity.
  - intros t Hin.
    exact (proj2 (bundle_tweet_marks_agree (parsed_as profile_with_tweets) (lit "<html>")
                    bundle t E Hin)).
Defined.

(** X14.  What is missing in a timeline item gets a default: without a
    body the [content] is empty; without a heart, comment or retweet icon
    the count is the text ["0"]; without a tweet link [tweet_link] is
    empty. *)
Theorem bundle_tweet_defaults (BeautifulSoup : str -> tag) (html : str)
    (bundle : Bundle.t) :
  extract_profile_contents BeautifulSoup html = Return bundle ->
  Forall2 (fun item t =>
             Tweet.content t = optional_text (select_one (css ".tweet-content") item)
             /\ (select_one (css ".icon-heart") item = None -> Tweet.likes t = lit "0")
             /\ (select_one (css ".icon-comment") item = None -> Tweet.comments t = lit "0")
             /\ (select_one (css ".icon-retweet") item = None -> Tweet.retweets t = lit "0")
             /\ (select_one (css ".tweet-link") item = None -> Tweet.tweet_link t = lit ""))
          (select (css ".timeline-item") (BeautifulSoup html)) (Bundle.tweets bundle).
Proof.
  intros H. apply extract_profile_contents_inv in H.
  destruct H as (fn & un & jd & t1 & t2 & t3 & t4 & n1 & n2 & n3 & n4 & avatar & banner & H).
  destruct H as (_ & _ & _ & _ & _ & _ & _ & _ & _ & _ & _ & _ & _ & Ht & _ & _).
  apply for_each_inv in Ht.
  induction Ht as [|item t items ts Hitem _ IH]; constructor; [|exact IH].
  apply tweet_data_inv in Hitem.
  destruct Hitem as (images & date & likes & comments & retweets & link
                     & _ & _ & Hl & Hc & Hr & Hlink & ->).
  cbn [Tweet.content Tweet.likes Tweet.comments Tweet.retweets Tweet.tweet_link].
  repeat split; intros Hnone.
  - rewrite Hnone in Hl. now injection Hl as <-.
  - rewrite Hnone in Hc. now injection Hc as <-.
  - rewrite Hnone in Hr. now injection Hr as <-.
  - rewrite Hnone in Hlink. now injection Hlink as <-.
Qed.

Lemma bundle_tweet_defaults_witness :
  exists bundle,
    extract_profile_contents (parsed_as profile_with_tweets) (lit "<html>") = Return bundle
    /\ map Tweet.comments (Bundle.tweets bundle) = [lit "0"; lit "0"]
    /\ map Tweet.likes (Bundle.tweets bundle) = [lit "12"; lit "0"]
    /\ List.length (Bundle.tweets bundle)
       = List.length (select (css ".timeline-item") profile_with_tweets).
Proof.
  destruct (extract_profile_contents (parsed_as profile_with_tweets) (lit "<html>"))
    as [bundle|] eqn:E; [|vm_compute in E; discriminate E].
  exists bundle. split; [reflexivity|].
  pose proof (bundle_tweet_defaults (parsed_as profile_with_tweets) (lit "<html>") bundle E)
    as HF.
  split; [|split]; [| |symmetry; exact (Forall2_length HF)];
    vm_compute in E; injection E as <-; reflexivity.
Defined.

(** X15.  A profile page is extracted whenever every required element is
    there, the four count texts are empty or digits and commas with at
    least one and at most 4300 digits, the avatar image and the banner image (if any) carry a [src],
    every timeline item is complete and every photo-rail image carries a
    [src]. *)
Theorem profile_extraction_succeeds (BeautifulSoup : str -> tag) (html : str) :
  Forall (fun sel => select_one (css sel) (BeautifulSoup html) <> None)
         required_selectors ->
  Forall (fun sel => forall el, select_one (css sel) (BeautifulSoup html) = Some el ->
                                count_text (strip (text el)) = true)
         stat_selectors ->
  (forall img, select_one (css ".profile-card-avatar img") (BeautifulSoup html) = Some img ->
               has_src img = true) ->
  (forall img, select_one (css ".profile-banner img") (BeautifulSoup html) = Some img ->
               has_src img = true) ->
  forallb complete_tweet (select (css ".timeline-item") (BeautifulSoup html)) = true ->
  forallb has_src (select (css ".photo-rail-grid a img") (BeautifulSoup html)) = true ->
  exists bundle, extract_profile_contents BeautifulSoup html = Return bundle.
Proof.
  intros Hreq Hstat Havatar Hbanner Htimeline Hrail.
  unfold required_selectors in Hreq. unfold stat_selectors in Hstat.
  split_Forall Hreq. split_Forall Hstat.
  unfold extract_profile_contents. cbv zeta.
  destruct (for_each_all tweet_data (select (css ".timeline-item") (BeautifulSoup html)))
    as (tweets & -> & _).
  { intros item Hin. apply tweet_data_complete_iff.
    rewrite forallb_forall in Htimeline. now apply Htimeline. }
  destruct (for_each_images_returns _ Hrail) as [media ->].
  required fullname. required username.
  destruct (select_one (css ".profile-bio p") (BeautifulSoup html)) as [bio|];
  destruct (select_one (css ".profile-location span:nth-of-type(2)") (BeautifulSoup html))
    as [location|].
  all: required joined; required posts; required following; required followers;
       required likes; required avatar.
  all: cbn [bind stripped_text dot_text].
  all: repeat match goal with
         | H : forall el, Some ?x = Some el -> count_text _ = true |- _ =>
             let n := fresh "n" in let E := fresh "E" in
             destruct (stat_cleaner_count_text _ (H x eq_refl)) as [n E];
             rewrite E; clear H E; cbn [bind]
         end.
  all: destruct (image_url_has_src avatar (Havatar avatar eq_refl)) as [u ->]; cbn [bind].
  all: destruct (select_one (css ".profile-banner img") (BeautifulSoup html)) as [banner|] eqn:Eb.
  all: try (destruct (image_url_has_src banner (Hbanner banner eq_refl)) as [v ->]).
  all: cbn [bind]; eexists; reflexivity.
Qed.

Lemma profile_extraction_succeeds_witness :
  exists bundle,
    extract_profile_contents (parsed_as profile_with_tweets) (lit "<html>") = Return bundle.
Proof.
  apply (profile_extraction_succeeds (parsed_as profile_with_tweets) (lit "<html>")).
  - unfold required_selectors. repeat constructor; discriminate.
  - unfold stat_selectors.
    repeat (constructor; [intros el H; vm_compute in H; injection H as <-; reflexivity|]).
    constructor.
  - intros img H. vm_compute in H. injection H as <-. reflexivity.
  - intros img H. vm_compute in H. discriminate H.
  - reflexivity.
  - reflexivity.
Defined.

(** X16.  There are no partial results: one timeline item that is not
    complete, or one photo-rail image without a [src], makes
    [extract_profile_contents] raise, whatever the rest of the page. *)
Theorem profile_aborts_on_one_bad_item (BeautifulSoup : str -> tag) (html : str) :
  (exists item, In item (select (css ".timeline-item") (BeautifulSoup html))
                /\ complete_tweet item = false)
  \/ (exists img, In img (select (css ".photo-rail-grid a img") (BeautifulSoup html))
                  /\ has_src img = false) ->
  exists e, extract_profile_contents BeautifulSoup html = Raise e.
Proof.
  intros Hbad.
  destruct (extract_profile_contents BeautifulSoup html) as [bundle|e] eqn:E;
    [exfalso|now exists e].
  apply extract_profile_contents_inv in E.
  destruct E as (fn & un & jd & t1 & t2 & t3 & t4 & n1 & n2 & n3 & n4 & avatar & banner & H).
  destruct H as (_ & _ & _ & _ & _ & _ & _ & _ & _ & _ & _ & _ & _ & Ht & Hm & _).
  destruct Hbad as [(item & Hin & Hbad)|(img & Hin & Hbad)].
  - destruct (for_each_returns_each _ _ _ _ Ht Hin) as (t & _ & Hitem).
    assert (complete_tweet item = true) by (apply tweet_data_complete_iff; now exists t).
    congruence.
  - apply for_each_images_inv in Hm. rewrite forallb_forall in Hm.
    rewrite (Hm img Hin) in Hbad. discriminate.
Qed.

Lemma profile_aborts_on_one_bad_item_witness :
  exists e,
    extract_profile_contents (parsed_as profile_with_undated_tweet) (lit "<html>") = Raise e.
Proof.
  apply (profile_aborts_on_one_bad_item (parsed_as profile_with_undated_tweet) (lit "<html>")).
  left.
  exists (nth 2 (select (css ".timeline-item") profile_with_undated_tweet)
              (document [])).
  split; [|reflexivity].
  vm_compute. right. right. left. reflexivity.
Defined.

Lemma replace_leading (old new rest : str) :
  old <> [] -> replace (old ++ rest) old new = new ++ replace rest old new.
Proof.
  destruct old as [|c old]; [contradiction|]. intros _. apply replace_at_start.
Qed.

(** X17.  When the join-date text, stripped, is the word [Joined]
    followed by a remainder that does not contain that word, the
    [join_date] of the returned profile is the stripped remainder. *)
Theorem join_date_drops_joined (BeautifulSoup : str -> tag) (html : str)
    (bundle : Bundle.t) (el : tag) (rest : str) :
  extract_profile_contents BeautifulSoup html = Return bundle ->
  select_one (css ".profile-joindate span") (BeautifulSoup html) = Some el ->
  strip (text el) = lit "Joined" ++ rest ->
  contains rest (lit "Joined") = false ->
  Profile.join_date (Bundle.profile bundle) = strip rest.
Proof.
  intros H Hel Htext Hrest. apply extract_profile_contents_inv in H.
  destruct H as (fn & un & jd & t1 & t2 & t3 & t4 & n1 & n2 & n3 & n4 & avatar & banner & H).
  destruct H as (_ & _ & Hjd & _ & _ & _ & _ & _ & _ & _ & _ & _ & _ & _ & _ & H).
  rewrite H. cbn [Profile.join_date].
  rewrite Hel in Hjd. cbn [stripped_text dot_text bind] in Hjd.
  injection Hjd as <-. rewrite Htext.
  rewrite replace_leading by discriminate.
  now rewrite (replace_absent _ _ _ Hrest).
Qed.

Lemma join_date_drops_joined_witness :
  exists bundle,
    extract_profile_contents (parsed_as profile_minimal) (lit "<html>") = Return bundle
    /\ Profile.join_date (Bundle.profile bundle) = lit "March 2020".
Proof.
  destruct (extract_profile_contents (parsed_as profile_minimal) (lit "<html>"))
    as [bundle|] eqn:E; [|vm_compute in E; discriminate E].
  exists bundle. split; [reflexivity|].
  destruct (select_one (css ".profile-joindate span") profile_minimal) as [el|] eqn:Eel;
    [|vm_compute in Eel; discriminate Eel].
  rewrite (join_date_drops_joined (parsed_as profile_minimal) (lit "<html>") bundle el
             (lit " March 2020") E Eel).
  - reflexivity.
  - vm_compute in Eel. injection Eel as <-. reflexivity.
  - reflexivity.
Defined.

(* ================================================================= *)
(** ** More on the search results *)

Lemma user_data_returns_complete (item : tag) (u : User.t) :
  user_data item = Return u -> complete_item item = true.
Proof.
  unfold user_data, complete_item. intros H.
  destruct (select (css ".profile-result .tweet-avatar img") item) as [|img rest];
    [discriminate|].
  destruct (image_url (Some img)) as [url|] eqn:Eimg; [|discriminate].
  rewrite (image_url_returns_has_src _ _ Eimg).
  destruct (select_one (css ".fullname") item); [|discriminate].
  destruct (select_one (css ".username") item); [|discriminate].
  reflexivity.
Qed.

(** X18.  [extract_search_contents] returns a list exactly when every
    timeline item of the page has an avatar image, a [src] on the first
    of its avatar images, a full name and a user name; one item short of
    that makes it raise, whatever the other items are. *)
Theorem search_returns_iff_complete (BeautifulSoup : str -> tag) (html : str) :
  (exists users, extract_search_contents BeautifulSoup html = Return users)
  <-> forallb complete_item (select (css ".timeline-item") (BeautifulSoup html)) = true.
Proof.
  unfold extract_search_contents. cbv zeta. split.
  - intros [users H]. apply forallb_forall. intros item Hin.
    destruct (for_each_returns_each _ _ _ _ H Hin) as (u & _ & Hu).
    now apply (user_data_returns_complete item u).
  - intros H.
    destruct (for_each_all user_data (select (css ".timeline-item") (BeautifulSoup html)))
      as (users & Hret & _).
    + intros item Hin. apply user_data_complete.
      rewrite forallb_forall in H. now apply H.
    + now exists users.
Qed.

Lemma search_returns_iff_complete_witness :
  (exists users, extract_search_contents (parsed_as search_two) (lit "<html>") = Return users)
  /\ forallb complete_item (select (css ".timeline-item") search_without_avatar) = false.
Proof.
  split.
  - apply (proj2 (search_returns_iff_complete (parsed_as search_two) (lit "<html>"))).
    reflexivity.
  - reflexivity.
Defined.

(** X19.  Each record of a returned search list is read from its item
    this way: the picture is the normalized [DOMAIN + src] of the first
    avatar image, the names are the stripped texts of the [.fullname] and
    [.username] elements, and [bio] is the stripped text of the
    [.tweet-content] element, or empty without one. *)
Theorem search_record_contents (BeautifulSoup : str -> tag) (html : str)
    (users : list User.t) :
  extract_search_contents BeautifulSoup html = Return users ->
  Forall2 (fun item user =>
             exists img others src fullname username,
               select (css ".profile-result .tweet-avatar img") item = img :: others
               /\ assoc (lit "src") (t_attrs img) = Some src
               /\ select_one (css ".fullname") item = Some fullname
               /\ select_one (css ".username") item = Some username
               /\ user = User.mk (convert_nitter_image_to_twitter (DOMAIN ++ src))
                           (strip (text fullname)) (strip (text username))
                           (optional_text (select_one (css ".tweet-content") item)))
          (select (css ".timeline-item") (BeautifulSoup html)) users.
Proof.
  unfold extract_search_contents. cbv zeta. intros H. apply for_each_inv in H.
  induction H as [|item user items users' Hu _ IH]; constructor; [|exact IH].
  unfold user_data in Hu.
  destruct (select (css ".profile-result .tweet-avatar img") item) as [|img others];
    [discriminate|].
  destruct (image_url (Some img)) as [url|] eqn:Eimg; [|discriminate].
  destruct (image_url_inv _ _ Eimg) as (src & Esrc & ->).
  destruct (select_one (css ".fullname") item) as [fullname|]; [|discriminate].
  destruct (select_one (css ".username") item) as [username|]; [|discriminate].
  exists img, others, src, fullname, username.
  repeat split; try assumption.
  destruct (select_one (css ".tweet-content") item);
    cbn in Hu; injection Hu as <-; reflexivity.
Qed.

Lemma search_record_contents_witness :
  Forall2 (fun item user =>
             exists img others src fullname username,
               select (css ".profile-result .tweet-avatar img") item = img :: others
               /\ assoc (lit "src") (t_attrs img) = Some src
               /\ select_one (css ".fullname") item = Some fullname
               /\ select_one (css ".username") item = Some username
               /\ user = User.mk (convert_nitter_image_to_twitter (DOMAIN ++ src))
                           (strip (text fullname)) (strip (text username))
                           (optional_text (select_one (css ".tweet-content") item)))
          (select (css ".timeline-item") search_two) search_two_users.
Proof.
  apply (search_record_contents (parsed_as search_two) (lit "<html>")). reflexivity.
Defined.

(* ================================================================= *)
(** ** More on the page load and the entry points *)

Section EntryPointFacts.
Import Fetcher PageLoad Scrapper.

Variable Driver : Type.
Variable Fault : Type.
Variable fault_str : Fault -> str.
Variable driver_get : str -> Driver -> result Fault unit * Driver.
Variable time_sleep : Z -> Driver -> Driver.
Variable driver_page_source : Driver -> result Fault str * Driver.
Variable BeautifulSoup : str -> tag.

Lemma profile_html_contents_loads (username : str) :
  loads fault_str driver_get time_sleep driver_page_source (profile_url username)
    (profile_html_contents fault_str driver_get time_sleep driver_page_source username).
Proof.
  exact (page_load_body_loads _ _ fault_str driver_get time_sleep driver_page_source
           (profile_url username)).
Qed.

Lemma search_html_contents_loads (query : str) (from_date to_date : option str) :
  loads fault_str driver_get time_sleep driver_page_source
    (search_url query from_date to_date)
    (search_html_contents fault_str driver_get time_sleep driver_page_source
       query from_date to_date).
Proof.
  exact (page_load_body_loads _ _ fault_str driver_get time_sleep driver_page_source
           (search_url query from_date to_date)).
Qed.

(** The events of the body the two page-load methods share. *)
Lemma page_load_body_events (url : str) (w : world Driver) :
  exists events,
    trace (snd (try_except
                  (io_bind (get driver_get url) (fun _ =>
                   io_bind (sleep time_sleep 5) (fun _ =>
                   io_bind (page_source driver_page_source) (fun source =>
                   ret (Some source)))))
                  (fun e =>
                   io_bind (print (lit "Error: " ++ fault_str e)) (fun _ => ret None))
                  w))
    = trace w ++ events
    /\ load_events url events
    /\ (forall e d, driver_get url (driver w) = (Raise e, d) ->
                    events = [Navigate url; Print (lit "Error: " ++ fault_str e)]).
Proof.
  unfold try_except, io_bind, get, sleep, page_source, print, ret.
  destruct (driver_get url (driver w)) as [[[]|e] d1].
  - cbn [driver trace fst snd].
    destruct (driver_page_source (time_sleep 5 d1)) as [[source|e] d2];
      cbn [driver trace fst snd]; rewrite <- !app_assoc; eexists;
      (split; [reflexivity|]); (split; [|discriminate]); unfold load_events.
    + now left.
    + right; left. eexists; reflexivity.
  - cbn [driver trace fst snd]. rewrite <- !app_assoc. eexists.
    split; [reflexivity|]. split.
    + unfold load_events. right; right. eexists; reflexivity.
    + intros e' d H. now injection H as <- _.
Qed.

(** X20.  A page load does its steps in one order: it navigates, sleeps
    5 seconds and only then reads the page source; it prints at most one
    line, last.  When the navigation itself faults there is no sleep and
    no read, only the printed line. *)
Theorem page_load_settles_before_reading :
  (forall (username : str) (w : world Driver),
      exists events,
        trace (snd (profile_html_contents fault_str driver_get time_sleep
                      driver_page_source username w))
        = trace w ++ events
        /\ load_events (profile_url username) events
        /\ (forall e d, driver_get (profile_url username) (driver w) = (Raise e, d) ->
                        events = [Navigate (profile_url username);
                                  Print (lit "Error: " ++ fault_str e)]))
  /\ (forall (query : str) (from_date to_date : option str) (w : world Driver),
         exists events,
           trace (snd (search_html_contents fault_str driver_get time_sleep
                         driver_page_source query from_date to_date w))
           = trace w ++ events
           /\ load_events (search_url query from_date to_date) events
           /\ (forall e d,
                  driver_get (search_url query from_date to_date) (driver w) = (Raise e, d) ->
                  events = [Navigate (search_url query from_date to_date);
                            Print (lit "Error: " ++ fault_str e)])).
Proof.
  split.
  - intros username w. exact (page_load_body_events (profile_url username) w).
  - intros query from_date to_date w.
    exact (page_load_body_events (search_url query from_date to_date) w).
Qed.

(** X21.  [get_profile] and [search] never return [None] and never let
    a driver fault through.  When the page load gives the markup, they
    return or raise what the extraction of that markup returns or raises;
    when the page load faults, the [None] it returns reaches the parser
    and the call raises [TypeError]. *)
Theorem entry_points_after_page_load :
  (forall (username : str) (w : world Driver),
      match driver_outcome driver_get time_sleep driver_page_source
              (profile_url username) (driver w) with
      | Return source =>
          fst (get_profile fault_str driver_get time_sleep driver_page_source
                 BeautifulSoup username w)
          = extracted (extract_profile_contents BeautifulSoup source)
      | Raise _ =>
          fst (get_profile fault_str driver_get time_sleep driver_page_source
                 BeautifulSoup username w)
          = Raise (inr TypeError)
      end)
  /\ (forall (query : str) (from_date to_date : option str) (w : world Driver),
         match driver_outcome driver_get time_sleep driver_page_source
                 (search_url query from_date to_date) (driver w) with
         | Return source =>
             fst (search fault_str driver_get time_sleep driver_page_source
                    BeautifulSoup query from_date to_date w)
             = extracted (extract_search_contents BeautifulSoup source)
         | Raise _ =>
             fst (search fault_str driver_get time_sleep driver_page_source
                    BeautifulSoup query from_date to_date w)
             = Raise (inr TypeError)
         end).
Proof.
  split.
  - intros username w.
    destruct (profile_html_contents_loads username w) as (events & _ & _ & H).
    unfold get_profile.
    destruct (profile_html_contents fault_str driver_get time_sleep driver_page_source
                username w) as [r w'].
    cbn [fst] in H.
    destruct (driver_outcome driver_get time_sleep driver_page_source
                (profile_url username) (driver w)); destruct H as [-> _]; reflexivity.
  - intros query from_date to_date w.
    destruct (search_html_contents_loads query from_date to_date w) as (events & _ & _ & H).
    unfold search.
    destruct (search_html_contents fault_str driver_get time_sleep driver_page_source
                query from_date to_date w) as [r w'].
    cbn [fst] in H.
    destruct (driver_outcome driver_get time_sleep driver_page_source
                (search_url query from_date to_date) (driver w));
      destruct H as [-> _]; reflexivity.
Qed.

End EntryPointFacts.

Lemma page_load_settles_before_reading_witness :
  exists events,
    Fetcher.trace
      (snd (Fetcher.search_html_contents (fun e => e) toy_get toy_sleep toy_page_source
              (lit "jane") None None (Fetcher.mk_world [] [])))
    = [] ++ events
    /\ events
       = [Fetcher.Navigate (Fetcher.search_url (lit "jane") None None);
          Fetcher.Print (lit "Error: Message: timeout")].
Proof.
  destruct (proj2 (page_load_settles_before_reading _ _ (fun e => e) toy_get toy_sleep
                     toy_page_source)
              (lit "jane") None None (Fetcher.mk_world [] []))
    as (events & Htrace & _ & Hfault).
  exists events. split; [exact Htrace|].
  exact (Hfault (lit "Message: timeout") [] eq_refl).
Defined.

(** The entry points on the example driver: the profile of the page it
    serves is extracted; a search, which times out, ends in
    [TypeError]. *)
Example search_on_timeout_raises :
  fst (Scrapper.search (fun e => e) toy_get toy_sleep toy_page_source
         (parsed_as search_two) (lit "jane") None None (Fetcher.mk_world [] []))
  = Raise (inr TypeError).
Proof. reflexivity. Qed.

Example get_profile_on_served_page :
  exists bundle,
    fst (Scrapper.get_profile (fun e => e) toy_get toy_sleep toy_page_source
           (parsed_as profile_minimal) (lit "jane") (Fetcher.mk_world [] []))
    = Return bundle
    /\ Profile.full_name (Bundle.profile bundle) = lit "Jane Doe".
Proof. eexists. split; reflexivity. Qed.

(** X22.  The search URL is put together without escaping: a query that
    contains [&since=] cannot be told from a date, and an absent date
    cannot be told from the date text [None]. *)
Theorem search_url_is_not_escaped (query a b : str) (to_date : option str) :
  Fetcher.search_url (query ++ lit "&since=" ++ a) (Some b) to_date
  = Fetcher.search_url query (Some (a ++ lit "&since=" ++ b)) to_date
  /\ Fetcher.search_url query None to_date
     = Fetcher.search_url query (Some (lit "None")) to_date.
Proof.
  unfold Fetcher.search_url, Fetcher.format_value.
  split; rewrite <- ?app_assoc; reflexivity.
Qed.

Lemma stripped_text_inv (x : option tag) (shown : str) :
  stripped_text x = Return shown -> exists el, x = Some el /\ shown = strip (text el).
Proof.
  destruct x as [el|]; [|discriminate]. cbn. intros H. injection H as <-. now exists el.
Qed.

(** X23.  The profile of a returned bundle, field by field: the names
    and the join date come from the stripped texts of their elements (the
    user name cleaned of [@], the join date without the word [Joined]),
    the four counts are what [stat_cleaner] makes of the stripped count
    texts, the profile image is the normalized [DOMAIN + src] of the
    avatar image, and so is the banner image when there is one. *)
Theorem profile_record_contents (BeautifulSoup : str -> tag) (html : str)
    (bundle : Bundle.t) :
  extract_profile_contents BeautifulSoup html = Return bundle ->
  exists fullname username joined posts following followers likes avatar src n1 n2 n3 n4,
    select_one (css ".profile-card-fullname") (BeautifulSoup html) = Some fullname
    /\ select_one (css ".profile-card-username") (BeautifulSoup html) = Some username
    /\ select_one (css ".profile-joindate span") (BeautifulSoup html) = Some joined
    /\ select_one (css ".posts .profile-stat-num") (BeautifulSoup html) = Some posts
    /\ select_one (css ".following .profile-stat-num") (BeautifulSoup html) = Some following
    /\ select_one (css ".followers .profile-stat-num") (BeautifulSoup html) = Some followers
    /\ select_one (css ".likes .profile-stat-num") (BeautifulSoup html) = Some likes
    /\ select_one (css ".profile-card-avatar img") (BeautifulSoup html) = Some avatar
    /\ assoc (lit "src") (t_attrs avatar) = Some src
    /\ stat_cleaner (Some (strip (text posts))) = Return n1
    /\ stat_cleaner (Some (strip (text following))) = Return n2
    /\ stat_cleaner (Some (strip (text followers))) = Return n3
    /\ stat_cleaner (Some (strip (text likes))) = Return n4
    /\ Bundle.profile bundle
       = Profile.mk (strip (text fullname)) (username_cleaner (strip (text username)))
           (optional_text (select_one (css ".profile-bio p") (BeautifulSoup html)))
           (optional_text (select_one (css ".profile-location span:nth-of-type(2)")
                             (BeautifulSoup html)))
           (strip (replace (strip (text joined)) (lit "Joined") (lit "")))
           n1 n2 n3 n4
           (convert_nitter_image_to_twitter (DOMAIN ++ src))
           (match select_one (css ".profile-banner img") (BeautifulSoup html) with
            | Some banner =>
                match assoc (lit "src") (t_attrs banner) with
                | Some s => convert_nitter_image_to_twitter (DOMAIN ++ s)
                | None => lit ""
                end
            | None => lit ""
            end).
Proof.
  intros H. apply extract_profile_contents_inv in H.
  destruct H as (fn & un & jd & t1 & t2 & t3 & t4 & n1 & n2 & n3 & n4 & avatar & banner & H).
  destruct H as (Hfn & Hun & Hjd & H1 & H2 & H3 & H4 & Hn1 & Hn2 & Hn3 & Hn4
                 & Ha & Hb & _ & _ & Hp).
  apply stripped_text_inv in Hfn as (fullname & Efn & ->).
  apply stripped_text_inv in Hun as (username & Eun & ->).
  apply stripped_text_inv in Hjd as (joined & Ejd & ->).
  apply stripped_text_inv in H1 as (posts & E1 & ->).
  apply stripped_text_inv in H2 as (following & E2 & ->).
  apply stripped_text_inv in H3 as (followers & E3 & ->).
  apply stripped_text_inv in H4 as (likes & E4 & ->).
  destruct (select_one (css ".profile-card-avatar img") (BeautifulSoup html))
    as [img|] eqn:Ea; [|discriminate].
  destruct (image_url_inv _ _ Ha) as (src & Esrc & ->).
  exists fullname, username, joined, posts, following, followers, likes, img, src,
         n1, n2, n3, n4.
  repeat split; try assumption.
  rewrite Hp. f_equal.
  destruct (select_one (css ".profile-banner img") (BeautifulSoup html)) as [bimg|].
  - destruct (image_url_inv _ _ Hb) as (s & Es & ->). now rewrite Es.
  - now injection Hb as <-.
Qed.

Lemma profile_record_contents_witness :
  exists bundle,
    extract_profile_contents (parsed_as profile_minimal) (lit "<html>") = Return bundle
    /\ Bundle.profile bundle
       = Profile.mk (lit "Jane Doe") (lit "jane") (lit "") (lit "") (lit "March 2020")
           1234 56 7890 0 (lit "https://pbs.twimg.com/profile_images/1/a.jpg") (lit "").
Proof.
  destruct (extract_profile_contents (parsed_as profile_minimal) (lit "<html>"))
    as [bundle|] eqn:E; [|vm_compute in E; discriminate E].
  exists bundle. split; [reflexivity|].
  destruct (profile_record_contents (parsed_as profile_minimal) (lit "<html>") bundle E)
    as (fn & un & jd & p1 & p2 & p3 & p4 & av & src & n1 & n2 & n3 & n4 & H).
  vm_compute in E. injection E as <-. reflexivity.
Defined.
